(** * SiMi-Demo-Board: peripheral drivers of the STM32H7 demo firmware

    Shallow embedding of the parts of [UserInput.c], [main.c], [WS2812.c],
    [W25Qxx_QSPI.c] and [ILI9341.c] that the specification talks about,
    followed by the properties proved about them.

    Conventions.  C integers are [Z] with the wrap-around of their width
    written out where it can occur.  Global variables of a module are the
    fields of a record; a function that touches them is a state transformer
    in a small state monad.  Calls into the HAL are logged in a trace so
    that the order of the hardware operations can be stated. *)

From Stdlib Require Import ZArith List Bool Lia Floats QArith Qround.
From Equations Require Import Equations.
Import ListNotations.
Open Scope Z_scope.

(* ===================================================================== *)
(** * UserInput.c / UserInput.h / main.c : debounced joystick and button  *)
(* ===================================================================== *)

Module UserInput.

(** [enum UserInputs] of UserInput.h. *)
Inductive UserInputs : Set :=
| MDS_LEFT | MDS_RIGHT | MDS_UP | MDS_DOWN | MDS_BUTTON | USER_BUTTON
| USER_INPUT_NONE.

Definition UserInputs_eqb (a b : UserInputs) : bool :=
  match a, b with
  | MDS_LEFT, MDS_LEFT | MDS_RIGHT, MDS_RIGHT | MDS_UP, MDS_UP
  | MDS_DOWN, MDS_DOWN | MDS_BUTTON, MDS_BUTTON
  | USER_BUTTON, USER_BUTTON | USER_INPUT_NONE, USER_INPUT_NONE => true
  | _, _ => false
  end.

(** The six channels in the order the source lists them. *)
Definition channels : list UserInputs :=
  [MDS_LEFT; MDS_RIGHT; MDS_UP; MDS_DOWN; MDS_BUTTON; USER_BUTTON].

(** Build-time choice of the debounce method (UserInput.h refuses both). *)
Inductive Debounce : Set := DEBOUNCE_WITH_DELAY | DEBOUNCE_WITH_TIMER.

(** GPIO ports of the HAL that main.h refers to. *)
Inductive GPIO_TypeDef : Set := GPIOA | GPIOB | GPIOC | GPIOD | GPIOE.

(** [Pin] (Pin.h): a port pointer, null in [(Pin){0,0}], and a pin mask. *)
Record Pin : Set := mkPin { GPIOx : option GPIO_TypeDef; GPIO_Pin : Z }.

Definition GPIO_PIN_RESET : Z := 0.
Definition GPIO_PIN_SET : Z := 1.

Definition GPIO_PIN_5 : Z := 0x0020.
Definition GPIO_PIN_10 : Z := 0x0400.
Definition GPIO_PIN_13 : Z := 0x2000.
Definition GPIO_PIN_14 : Z := 0x4000.
Definition GPIO_PIN_15 : Z := 0x8000.

(** Pin assignment of main.h. *)
Definition MDS_LEFT_Pin := GPIO_PIN_5.
Definition MDS_LEFT_GPIO_Port := Some GPIOE.
Definition USER_BUTTON_Pin := GPIO_PIN_13.
Definition USER_BUTTON_GPIO_Port := Some GPIOC.
Definition MDS_DOWN_Pin := GPIO_PIN_10.
Definition MDS_DOWN_GPIO_Port := Some GPIOE.
Definition MDS_UP_Pin := GPIO_PIN_15.
Definition MDS_UP_GPIO_Port := Some GPIOE.
Definition MDS_BUTTON_Pin := GPIO_PIN_14.
Definition MDS_BUTTON_GPIO_Port := Some GPIOD.
Definition MDS_RIGHT_Pin := GPIO_PIN_5.
Definition MDS_RIGHT_GPIO_Port := Some GPIOB.

(** The pin a channel is wired to. *)
Definition pin_of (c : UserInputs) : Pin :=
  match c with
  | MDS_LEFT => mkPin MDS_LEFT_GPIO_Port MDS_LEFT_Pin
  | MDS_RIGHT => mkPin MDS_RIGHT_GPIO_Port MDS_RIGHT_Pin
  | MDS_UP => mkPin MDS_UP_GPIO_Port MDS_UP_Pin
  | MDS_DOWN => mkPin MDS_DOWN_GPIO_Port MDS_DOWN_Pin
  | MDS_BUTTON => mkPin MDS_BUTTON_GPIO_Port MDS_BUTTON_Pin
  | USER_BUTTON => mkPin USER_BUTTON_GPIO_Port USER_BUTTON_Pin
  | USER_INPUT_NONE => mkPin None 0
  end.

(** One [uint8_t] per channel: the source declares each family of
    variables ([X_Status], [X_LetzterStatus], [Pending_X_Flanke],
    [X_Flanke]) six times, once per channel [X]. *)
Record PerChannel : Set := mkPerChannel {
  of_LEFT : Z; of_RIGHT : Z; of_UP : Z; of_DOWN : Z; of_BUTTON : Z;
  of_USER : Z
}.

Definition at_channel (f : PerChannel) (c : UserInputs) : Z :=
  match c with
  | MDS_LEFT => of_LEFT f
  | MDS_RIGHT => of_RIGHT f
  | MDS_UP => of_UP f
  | MDS_DOWN => of_DOWN f
  | MDS_BUTTON => of_BUTTON f
  | USER_BUTTON => of_USER f
  | USER_INPUT_NONE => 0
  end.

Definition assign (c : UserInputs) (v : Z) (f : PerChannel) : PerChannel :=
  match c with
  | MDS_LEFT => mkPerChannel v (of_RIGHT f) (of_UP f) (of_DOWN f) (of_BUTTON f) (of_USER f)
  | MDS_RIGHT => mkPerChannel (of_LEFT f) v (of_UP f) (of_DOWN f) (of_BUTTON f) (of_USER f)
  | MDS_UP => mkPerChannel (of_LEFT f) (of_RIGHT f) v (of_DOWN f) (of_BUTTON f) (of_USER f)
  | MDS_DOWN => mkPerChannel (of_LEFT f) (of_RIGHT f) (of_UP f) v (of_BUTTON f) (of_USER f)
  | MDS_BUTTON => mkPerChannel (of_LEFT f) (of_RIGHT f) (of_UP f) (of_DOWN f) v (of_USER f)
  | USER_BUTTON => mkPerChannel (of_LEFT f) (of_RIGHT f) (of_UP f) (of_DOWN f) (of_BUTTON f) v
  | USER_INPUT_NONE => f
  end.

Definition all_zero : PerChannel := mkPerChannel 0 0 0 0 0 0.

(** The part of timer TIM6 the module drives: counter, counter enable,
    update flag. *)
Record TIM : Set := mkTIM { CNT : Z; CEN : bool; UIF : bool }.

Inductive TIM_Instance : Set := TIM6 | TIM7 | TIM_OTHER.

(** Calls into the HAL, in the order they are made. *)
Inductive HalCall : Set :=
| Call_Delay (ms : Z)
| Call_ReadPin (p : Pin)
| Call_TogglePin
| Call_TIM_SET_COUNTER (v : Z)
| Call_TIM_Base_Start_IT
| Call_TIM_Base_Stop
| Call_TIM_CLEAR_FLAG.

(** The globals of UserInput.c, the timer, the millisecond counter of
    Realtime.c, the current time and the log of HAL calls. *)
Record State : Type := mkState {
  LetzterStatus : PerChannel;
  Status : PerChannel;
  Pending_Flanke : PerChannel;
  Flanke : PerChannel;
  LetzterUserInputPin : Pin;
  LetzterUserInput : UserInputs;
  debounce_in_progress : Z;
  htim6 : TIM;
  ms_counter : Z;
  now : Z;
  hal_trace : list HalCall
}.

(** Values of the globals at start-up (their C initialisers). *)
Definition init : State :=
  mkState all_zero all_zero all_zero all_zero (mkPin None 0) USER_INPUT_NONE 0
          (mkTIM 0 false false) 0 0 [].

Definition with_LetzterStatus (v : PerChannel) (s : State) : State :=
  mkState v (Status s) (Pending_Flanke s) (Flanke s) (LetzterUserInputPin s)
    (LetzterUserInput s) (debounce_in_progress s) (htim6 s) (ms_counter s) (now s) (hal_trace s).
Definition with_Status (v : PerChannel) (s : State) : State :=
  mkState (LetzterStatus s) v (Pending_Flanke s) (Flanke s) (LetzterUserInputPin s)
    (LetzterUserInput s) (debounce_in_progress s) (htim6 s) (ms_counter s) (now s) (hal_trace s).
Definition with_Pending_Flanke (v : PerChannel) (s : State) : State :=
  mkState (LetzterStatus s) (Status s) v (Flanke s) (LetzterUserInputPin s)
    (LetzterUserInput s) (debounce_in_progress s) (htim6 s) (ms_counter s) (now s) (hal_trace s).
Definition with_Flanke (v : PerChannel) (s : State) : State :=
  mkState (LetzterStatus s) (Status s) (Pending_Flanke s) v (LetzterUserInputPin s)
    (LetzterUserInput s) (debounce_in_progress s) (htim6 s) (ms_counter s) (now s) (hal_trace s).
Definition with_LetzterUserInputPin (v : Pin) (s : State) : State :=
  mkState (LetzterStatus s) (Status s) (Pending_Flanke s) (Flanke s) v
    (LetzterUserInput s) (debounce_in_progress s) (htim6 s) (ms_counter s) (now s) (hal_trace s).
Definition with_LetzterUserInput (v : UserInputs) (s : State) : State :=
  mkState (LetzterStatus s) (Status s) (Pending_Flanke s) (Flanke s) (LetzterUserInputPin s)
    v (debounce_in_progress s) (htim6 s) (ms_counter s) (now s) (hal_trace s).
Definition with_debounce_in_progress (v : Z) (s : State) : State :=
  mkState (LetzterStatus s) (Status s) (Pending_Flanke s) (Flanke s) (LetzterUserInputPin s)
    (LetzterUserInput s) v (htim6 s) (ms_counter s) (now s) (hal_trace s).
Definition with_htim6 (v : TIM) (s : State) : State :=
  mkState (LetzterStatus s) (Status s) (Pending_Flanke s) (Flanke s) (LetzterUserInputPin s)
    (LetzterUserInput s) (debounce_in_progress s) v (ms_counter s) (now s) (hal_trace s).
Definition with_ms_counter (v : Z) (s : State) : State :=
  mkState (LetzterStatus s) (Status s) (Pending_Flanke s) (Flanke s) (LetzterUserInputPin s)
    (LetzterUserInput s) (debounce_in_progress s) (htim6 s) v (now s) (hal_trace s).
Definition with_now (v : Z) (s : State) : State :=
  mkState (LetzterStatus s) (Status s) (Pending_Flanke s) (Flanke s) (LetzterUserInputPin s)
    (LetzterUserInput s) (debounce_in_progress s) (htim6 s) (ms_counter s) v (hal_trace s).
Definition with_hal_trace (v : list HalCall) (s : State) : State :=
  mkState (LetzterStatus s) (Status s) (Pending_Flanke s) (Flanke s) (LetzterUserInputPin s)
    (LetzterUserInput s) (debounce_in_progress s) (htim6 s) (ms_counter s) (now s) v.

(** The pending flag [Pending_X_Flanke] and the confirmed flag [X_Flanke]
    of channel [X]. *)
Definition Pending (s : State) (c : UserInputs) : Z := at_channel (Pending_Flanke s) c.
Definition Confirmed (s : State) (c : UserInputs) : Z := at_channel (Flanke s) c.

(** ** State monad *)

Definition M (A : Type) : Type := State -> A * State.

Definition ret {A : Type} (a : A) : M A := fun s => (a, s).

Definition bind {A B : Type} (m : M A) (k : A -> M B) : M B :=
  fun s => let (a, s') := m s in k a s'.

Definition exec {A : Type} (m : M A) (s : State) : State := snd (m s).

Definition gets {A : Type} (f : State -> A) : M A := fun s => (f s, s).

Definition modify (f : State -> State) : M unit := fun s => (tt, f s).

Definition when (b : bool) (m : M unit) : M unit := if b then m else ret tt.

Declare Scope hal_scope.
Delimit Scope hal_scope with hal.
Notation "x <- m ;; k" := (bind m (fun x => k))
  (at level 61, m at next level, right associativity) : hal_scope.
Notation "m ;; k" := (bind m (fun _ => k))
  (at level 61, right associativity) : hal_scope.
Open Scope hal_scope.

(** C truth value of an integer. *)
Definition truthy (v : Z) : bool := negb (v =? 0).

(** The address of one of the twelve flag variables, as passed to
    [HandleFlanke]. *)
Inductive FlagVar : Set :=
| Addr_Flanke (c : UserInputs)
| Addr_Pending_Flanke (c : UserInputs).

Definition store (p : FlagVar) (v : Z) : M unit :=
  match p with
  | Addr_Flanke c => modify (fun s => with_Flanke (assign c v (Flanke s)) s)
  | Addr_Pending_Flanke c =>
      modify (fun s => with_Pending_Flanke (assign c v (Pending_Flanke s)) s)
  end.

Definition log (e : HalCall) : M unit :=
  modify (fun s => with_hal_trace (hal_trace s ++ [e]) s).

Section Firmware.

(** Build configuration and the electrical level of every line over time
    ([true] is high). *)
Variable cfg : Debounce.
Variable lines : Z -> Pin -> bool.

(** HAL primitives the module uses. *)
Definition HAL_GPIO_ReadPin (port : option GPIO_TypeDef) (pin : Z) : M Z :=
  log (Call_ReadPin (mkPin port pin)) ;;
  t <- gets now ;;
  ret (if lines t (mkPin port pin) then GPIO_PIN_SET else GPIO_PIN_RESET).

Definition HAL_Delay (ms : Z) : M unit :=
  log (Call_Delay ms) ;;
  modify (fun s => with_now (now s + ms) s).

Definition HAL_TIM_SET_COUNTER (v : Z) : M unit :=
  log (Call_TIM_SET_COUNTER v) ;;
  modify (fun s => with_htim6 (mkTIM v (CEN (htim6 s)) (UIF (htim6 s))) s).

Definition HAL_TIM_Base_Start_IT : M unit :=
  log Call_TIM_Base_Start_IT ;;
  modify (fun s => with_htim6 (mkTIM (CNT (htim6 s)) true (UIF (htim6 s))) s).

Definition HAL_TIM_Base_Stop : M unit :=
  log Call_TIM_Base_Stop ;;
  modify (fun s => with_htim6 (mkTIM (CNT (htim6 s)) false (UIF (htim6 s))) s).

Definition HAL_TIM_CLEAR_FLAG : M unit :=
  log Call_TIM_CLEAR_FLAG ;;
  modify (fun s => with_htim6 (mkTIM (CNT (htim6 s)) (CEN (htim6 s)) false) s).

(** [HandleFlanke] (UserInput.c:184). *)
Definition HandleFlanke (pin : Pin) (userInput : UserInputs)
    (flankenVariable : FlagVar) : M unit :=
  match cfg with
  | DEBOUNCE_WITH_DELAY =>
      HAL_Delay 50 ;;
      a <- HAL_GPIO_ReadPin (GPIOx pin) (GPIO_Pin pin) ;;
      held <- (if a =? 1 then ret true
               else b <- HAL_GPIO_ReadPin (GPIOx pin) (GPIO_Pin pin) ;;
                    ret ((b =? 0) && UserInputs_eqb userInput USER_BUTTON)) ;;
      when held (store flankenVariable 1)
  | DEBOUNCE_WITH_TIMER =>
      modify (with_debounce_in_progress 1) ;;
      modify (with_LetzterUserInputPin (mkPin (GPIOx pin) (GPIO_Pin pin))) ;;
      modify (with_LetzterUserInput userInput) ;;
      HAL_TIM_SET_COUNTER 0 ;;
      HAL_TIM_Base_Start_IT
  end.

(** Reads one line into its [X_Status] variable. *)
Definition sample (c : UserInputs) : M unit :=
  v <- HAL_GPIO_ReadPin (GPIOx (pin_of c)) (GPIO_Pin (pin_of c)) ;;
  modify (fun s => with_Status (assign c v (Status s)) s).

(** The condition of one arm of the edge test of [PollingUserInput]. *)
Definition flanke_erkannt (s : State) (c : UserInputs) : bool :=
  match c with
  | USER_BUTTON =>
      (at_channel (Status s) c =? GPIO_PIN_RESET) && (at_channel (LetzterStatus s) c =? 1)
  | _ =>
      (at_channel (Status s) c =? GPIO_PIN_SET) && (at_channel (LetzterStatus s) c =? 0)
  end.

(** [PollingUserInput] (UserInput.c:225). *)
Definition PollingUserInput : M unit :=
  busy <- gets debounce_in_progress ;;
  if (match cfg with DEBOUNCE_WITH_TIMER => truthy busy | DEBOUNCE_WITH_DELAY => false end)
  then ret tt
  else
    sample MDS_LEFT ;;
    sample MDS_RIGHT ;;
    sample MDS_UP ;;
    sample MDS_DOWN ;;
    sample MDS_BUTTON ;;
    sample USER_BUTTON ;;
    s <- gets (fun s => s) ;;
    (if flanke_erkannt s MDS_LEFT then
       HandleFlanke (mkPin MDS_LEFT_GPIO_Port MDS_LEFT_Pin) MDS_LEFT (Addr_Flanke MDS_LEFT)
     else if flanke_erkannt s MDS_RIGHT then
       HandleFlanke (mkPin MDS_RIGHT_GPIO_Port MDS_RIGHT_Pin) MDS_RIGHT (Addr_Flanke MDS_RIGHT)
     else if flanke_erkannt s MDS_UP then
       HandleFlanke (mkPin MDS_UP_GPIO_Port MDS_UP_Pin) MDS_UP (Addr_Flanke MDS_UP)
     else if flanke_erkannt s MDS_DOWN then
       HandleFlanke (mkPin MDS_DOWN_GPIO_Port MDS_DOWN_Pin) MDS_DOWN (Addr_Flanke MDS_DOWN)
     else if flanke_erkannt s MDS_BUTTON then
       HandleFlanke (mkPin MDS_BUTTON_GPIO_Port MDS_BUTTON_Pin) MDS_BUTTON (Addr_Flanke MDS_BUTTON)
     else if flanke_erkannt s USER_BUTTON then
       HandleFlanke (mkPin USER_BUTTON_GPIO_Port USER_BUTTON_Pin) USER_BUTTON (Addr_Flanke USER_BUTTON)
     else ret tt) ;;
    modify (fun s => with_LetzterStatus (assign MDS_LEFT (at_channel (Status s) MDS_LEFT) (LetzterStatus s)) s) ;;
    modify (fun s => with_LetzterStatus (assign MDS_RIGHT (at_channel (Status s) MDS_RIGHT) (LetzterStatus s)) s) ;;
    modify (fun s => with_LetzterStatus (assign MDS_UP (at_channel (Status s) MDS_UP) (LetzterStatus s)) s) ;;
    modify (fun s => with_LetzterStatus (assign MDS_DOWN (at_channel (Status s) MDS_DOWN) (LetzterStatus s)) s) ;;
    modify (fun s => with_LetzterStatus (assign MDS_BUTTON (at_channel (Status s) MDS_BUTTON) (LetzterStatus s)) s) ;;
    modify (fun s => with_LetzterStatus (assign USER_BUTTON (at_channel (Status s) USER_BUTTON) (LetzterStatus s)) s).

(** [HandleDebouncedUserInput] (UserInput.c:295). *)
Definition HandleDebouncedUserInput : M unit :=
  p <- gets LetzterUserInputPin ;;
  a <- HAL_GPIO_ReadPin (GPIOx p) (GPIO_Pin p) ;;
  u <- gets LetzterUserInput ;;
  if a =? GPIO_PIN_SET then
    match u with
    | MDS_LEFT => store (Addr_Pending_Flanke MDS_LEFT) 1
    | MDS_RIGHT => store (Addr_Pending_Flanke MDS_RIGHT) 1
    | MDS_UP => store (Addr_Pending_Flanke MDS_UP) 1
    | MDS_DOWN => store (Addr_Pending_Flanke MDS_DOWN) 1
    | MDS_BUTTON => store (Addr_Pending_Flanke MDS_BUTTON) 1
    | _ => ret tt
    end
  else
    low <- (if UserInputs_eqb u USER_BUTTON
            then b <- HAL_GPIO_ReadPin (GPIOx p) (GPIO_Pin p) ;; ret (b =? GPIO_PIN_RESET)
            else ret false) ;;
    if low then store (Addr_Pending_Flanke USER_BUTTON) 1
    else
      modify (with_LetzterUserInput USER_INPUT_NONE) ;;
      modify (with_LetzterUserInputPin (mkPin None 0)).

(** [HandlePendingUserInput] (UserInput.c:353). *)
Definition promote (c : UserInputs) : M unit :=
  p <- gets (fun s => at_channel (Pending_Flanke s) c) ;;
  when (truthy p)
    (store (Addr_Flanke c) 1 ;; store (Addr_Pending_Flanke c) 0).

Definition HandlePendingUserInput : M unit :=
  promote MDS_LEFT ;;
  promote MDS_RIGHT ;;
  promote MDS_UP ;;
  promote MDS_DOWN ;;
  promote MDS_BUTTON ;;
  promote USER_BUTTON.

(** [ResetFlanken] (UserInput.c:380). *)
Definition ResetFlanken : M unit :=
  store (Addr_Flanke MDS_LEFT) 0 ;;
  store (Addr_Flanke MDS_RIGHT) 0 ;;
  store (Addr_Flanke MDS_UP) 0 ;;
  store (Addr_Flanke MDS_DOWN) 0 ;;
  store (Addr_Flanke MDS_BUTTON) 0 ;;
  store (Addr_Flanke USER_BUTTON) 0.

(** [HandleUserInputInterrupt] (UserInput.c:413). *)
Definition HandleUserInputInterrupt (userInput : UserInputs) : M unit :=
  busy <- gets debounce_in_progress ;;
  if (match cfg with DEBOUNCE_WITH_TIMER => truthy busy | DEBOUNCE_WITH_DELAY => false end)
  then ret tt
  else
    match userInput with
    | MDS_UP =>
        HandleFlanke (mkPin MDS_UP_GPIO_Port MDS_UP_Pin) MDS_UP (Addr_Pending_Flanke MDS_UP)
    | MDS_BUTTON =>
        HandleFlanke (mkPin MDS_BUTTON_GPIO_Port MDS_BUTTON_Pin) MDS_BUTTON (Addr_Pending_Flanke MDS_BUTTON)
    | MDS_RIGHT =>
        HandleFlanke (mkPin MDS_RIGHT_GPIO_Port MDS_RIGHT_Pin) MDS_RIGHT (Addr_Pending_Flanke MDS_RIGHT)
    | MDS_DOWN =>
        HandleFlanke (mkPin MDS_DOWN_GPIO_Port MDS_DOWN_Pin) MDS_DOWN (Addr_Pending_Flanke MDS_DOWN)
    | USER_BUTTON =>
        HandleFlanke (mkPin USER_BUTTON_GPIO_Port USER_BUTTON_Pin) USER_BUTTON (Addr_Pending_Flanke USER_BUTTON)
    | _ => ret tt
    end.

(** [UserInput_Interrupt] (UserInput.c:463); the argument is a
    [uint16_t]. *)
Definition UserInput_Interrupt (GPIO_Pin : Z) : M unit :=
  if GPIO_Pin =? GPIO_PIN_15 then HandleUserInputInterrupt MDS_UP
  else if GPIO_Pin =? GPIO_PIN_14 then HandleUserInputInterrupt MDS_BUTTON
  else if GPIO_Pin =? GPIO_PIN_5 then HandleUserInputInterrupt MDS_RIGHT
  else if GPIO_Pin =? GPIO_PIN_10 then HandleUserInputInterrupt MDS_DOWN
  else if GPIO_Pin =? GPIO_PIN_13 then HandleUserInputInterrupt USER_BUTTON
  else ret tt.

(** [HandleMDSLeft] (UserInput.c:509). *)
Definition HandleMDSLeft : M unit :=
  currentState <- HAL_GPIO_ReadPin MDS_LEFT_GPIO_Port MDS_LEFT_Pin ;;
  last <- gets (fun s => at_channel (LetzterStatus s) MDS_LEFT) ;;
  when ((currentState =? GPIO_PIN_SET) && (last =? GPIO_PIN_RESET))
    (busy <- gets debounce_in_progress ;;
     when (negb (truthy busy))
       (HandleFlanke (mkPin MDS_LEFT_GPIO_Port MDS_LEFT_Pin) MDS_LEFT (Addr_Flanke MDS_LEFT))) ;;
  modify (fun s => with_LetzterStatus (assign MDS_LEFT currentState (LetzterStatus s)) s).

(** [Realtime_Loop] (Realtime.c:44); [ms_counter] is a [uint32_t]. *)
Definition Realtime_Loop : M unit :=
  modify (fun s => with_ms_counter ((ms_counter s + 1) mod 2 ^ 32) s) ;;
  c <- gets ms_counter ;;
  when (c mod 1000 =? 0) (log Call_TogglePin).

(** [HAL_TIM_PeriodElapsedCallback] (main.c:369). *)
Definition HAL_TIM_PeriodElapsedCallback (Instance : TIM_Instance) : M unit :=
  match cfg with
  | DEBOUNCE_WITH_TIMER =>
      when (match Instance with TIM6 => true | _ => false end)
        (HandleDebouncedUserInput ;;
         HAL_TIM_Base_Stop ;;
         modify (with_debounce_in_progress 0) ;;
         HAL_TIM_CLEAR_FLAG)
  | DEBOUNCE_WITH_DELAY => ret tt
  end ;;
  when (match Instance with TIM7 => true | _ => false end) Realtime_Loop.

(** Ways an edge reaches the module, and the passing of time between
    them. *)
Inductive Delivery : Type :=
| By_EXTI (GPIO_Pin : Z)
| By_HandleUserInputInterrupt (userInput : UserInputs)
| By_PollingUserInput
| By_HandleMDSLeft
| Elapse (dt : Z).

Definition deliver (d : Delivery) : M unit :=
  match d with
  | By_EXTI p => UserInput_Interrupt p
  | By_HandleUserInputInterrupt u => HandleUserInputInterrupt u
  | By_PollingUserInput => PollingUserInput
  | By_HandleMDSLeft => HandleMDSLeft
  | Elapse dt => modify (fun s => with_now (now s + dt) s)
  end.

Fixpoint deliver_all (ds : list Delivery) (s : State) : State :=
  match ds with
  | [] => s
  | d :: ds' => deliver_all ds' (exec (deliver d) s)
  end.

End Firmware.

(** What a debounce attempt consists of: the latch, the recorded channel
    and pin, the timer, and the flags an attempt can end in. *)
Definition debounce_view (s : State) :=
  (debounce_in_progress s, LetzterUserInput s, LetzterUserInputPin s, htim6 s,
   Pending_Flanke s, Flanke s).

(** Channel [c] has a debounce in progress. *)
Definition in_debounce (s : State) (c : UserInputs) : Prop :=
  debounce_in_progress s <> 0 /\ LetzterUserInput s = c.

(** Line level read at the time of [s], as the HAL reports it. *)
Definition level (lines : Z -> Pin -> bool) (s : State) (p : Pin) : Z :=
  if lines (now s) p then GPIO_PIN_SET else GPIO_PIN_RESET.

(** A qualifying transition of channel [c] between the previous sample
    and the present level: rising for the joystick lines, falling for
    USER_BUTTON. *)
Definition qualifying (lines : Z -> Pin -> bool) (s : State) (c : UserInputs) : bool :=
  match c with
  | USER_INPUT_NONE => false
  | USER_BUTTON =>
      (level lines s (pin_of c) =? GPIO_PIN_RESET) && (at_channel (LetzterStatus s) c =? 1)
  | _ =>
      (level lines s (pin_of c) =? GPIO_PIN_SET) && (at_channel (LetzterStatus s) c =? 0)
  end.

(** First channel, in source order, with a qualifying transition. *)
Definition first_qualifying (lines : Z -> Pin -> bool) (s : State) : option UserInputs :=
  find (qualifying lines s) channels.

Definition GPIO_TypeDef_eqb (a b : GPIO_TypeDef) : bool :=
  match a, b with
  | GPIOA, GPIOA | GPIOB, GPIOB | GPIOC, GPIOC | GPIOD, GPIOD | GPIOE, GPIOE => true
  | _, _ => false
  end.

Definition Pin_eqb (p q : Pin) : bool :=
  match GPIOx p, GPIOx q with
  | Some a, Some b => GPIO_TypeDef_eqb a b
  | None, None => true
  | _, _ => false
  end && (GPIO_Pin p =? GPIO_Pin q).

(** The HAL calls made between state [s] and a later state [s']. *)
Definition new_calls (s s' : State) : list HalCall :=
  skipn (length (hal_trace s)) (hal_trace s').

(** The trace holds a delay of 50 directly followed by a read of pin
    [p]: the busy-wait debounce of that pin. *)
Fixpoint resampled_after_delay (p : Pin) (t : list HalCall) : bool :=
  match t with
  | [] => false
  | Call_Delay ms :: t' =>
      match t' with
      | Call_ReadPin q :: _ => (ms =? 50) && Pin_eqb q p
      | _ => false
      end || resampled_after_delay p t'
  | _ :: t' => resampled_after_delay p t'
  end.

(** A debounce attempt for channel [c] was begun between [s] and [s']:
    under the timer method the latch is set with [c] recorded, under the
    delay method the line of [c] went through the busy-wait. *)
Definition debounce_begun (cfg : Debounce) (c : UserInputs) (s s' : State) : bool :=
  match cfg with
  | DEBOUNCE_WITH_TIMER =>
      truthy (debounce_in_progress s') && UserInputs_eqb (LetzterUserInput s') c
  | DEBOUNCE_WITH_DELAY => resampled_after_delay (pin_of c) (new_calls s s')
  end.

(** The state after the six reads that open [PollingUserInput]. *)
Definition sampled (lines : Z -> Pin -> bool) (s : State) : State :=
  with_Status
    (mkPerChannel (level lines s (pin_of MDS_LEFT)) (level lines s (pin_of MDS_RIGHT))
       (level lines s (pin_of MDS_UP)) (level lines s (pin_of MDS_DOWN))
       (level lines s (pin_of MDS_BUTTON)) (level lines s (pin_of USER_BUTTON)))
    (with_hal_trace (hal_trace s ++ map (fun c => Call_ReadPin (pin_of c)) channels) s).

(** The six assignments that close [PollingUserInput]. *)
Definition remember_levels (s : State) : State := with_LetzterStatus (Status s) s.

(** Example signals.  [all_high]: every line high at all times, so every
    joystick line pressed and USER_BUTTON released.  [short_press]: the
    joystick lines idle (low), USER_BUTTON pressed (low) before time 50 and
    released (high) from then on. *)
Definition all_high : Z -> Pin -> bool := fun _ _ => true.

Definition short_press : Z -> Pin -> bool :=
  fun t p => if Pin_eqb p (pin_of USER_BUTTON) then 50 <=? t else false.

(** Start-up state with USER_BUTTON last seen released (high). *)
Definition released : State :=
  with_LetzterStatus (assign USER_BUTTON 1 all_zero) init.

(** Start-up state after an interrupt on the USER_BUTTON line (pin 13)
    under the timer method, with the signal [short_press]: the debounce of
    USER_BUTTON is in progress.  [at_expiry] is that state 50 time units
    later, when the button has been released again. *)
Definition armed_USER_BUTTON : State :=
  exec (UserInput_Interrupt DEBOUNCE_WITH_TIMER short_press GPIO_PIN_13) init.

Definition at_expiry : State :=
  deliver_all DEBOUNCE_WITH_TIMER short_press [Elapse 50] armed_USER_BUTTON.

(** ** The callers: interrupt dispatch, the main loop, the 1 ms tick *)

(** The channels [UserInput_Interrupt] knows; MDS_LEFT shares EXTI line 5
    with MDS_RIGHT and is polled by [HandleMDSLeft] instead. *)
Definition exti_channels : list UserInputs :=
  [MDS_RIGHT; MDS_UP; MDS_DOWN; MDS_BUTTON; USER_BUTTON].

(** The line of channel [c] is at its active level at time [t]: low for
    USER_BUTTON, high for the joystick lines. *)
Definition asserted (lines : Z -> Pin -> bool) (t : Z) (c : UserInputs) : bool :=
  if UserInputs_eqb c USER_BUTTON then negb (lines t (pin_of c)) else lines t (pin_of c).

(** What [HandlePendingUserInput] makes of the confirmed flags [f], given
    the pending flags [p]. *)
Definition promoted (p f : PerChannel) : PerChannel :=
  mkPerChannel
    (if truthy (of_LEFT p) then 1 else of_LEFT f)
    (if truthy (of_RIGHT p) then 1 else of_RIGHT f)
    (if truthy (of_UP p) then 1 else of_UP f)
    (if truthy (of_DOWN p) then 1 else of_DOWN f)
    (if truthy (of_BUTTON p) then 1 else of_BUTTON f)
    (if truthy (of_USER p) then 1 else of_USER f).



(** How often the green LED has been toggled. *)
Definition toggles (s : State) : Z :=
  Z.of_nat (length (filter (fun e => match e with Call_TogglePin => true | _ => false end)
                      (hal_trace s))).

(** [n] period interrupts of TIM7 in a row. *)
Fixpoint ticks (cfg : Debounce) (lines : Z -> Pin -> bool) (n : nat) (s : State) : State :=
  match n with
  | O => s
  | S k => ticks cfg lines k (exec (HAL_TIM_PeriodElapsedCallback cfg lines TIM7) s)
  end.

End UserInput.

(* ===================================================================== *)
(** * Fixed-size C arrays                                                 *)
(* ===================================================================== *)

(** [a[i] = v] on an array held as a list.  An index outside the array
    leaves the list as it is: in C such a store lands outside the object. *)
Fixpoint write_nat {A : Type} (i : nat) (v : A) (a : list A) : list A :=
  match a, i with
  | [], _ => []
  | _ :: t, O => v :: t
  | x :: t, S k => x :: write_nat k v t
  end.

Definition write {A : Type} (i : Z) (v : A) (a : list A) : list A :=
  if i <? 0 then a else write_nat (Z.to_nat i) v a.

Definition read (a : list Z) (i : Z) : Z := nth (Z.to_nat i) a 0.

(* ===================================================================== *)
(** * WS2812.c : one RGB LED driven by PWM duty values over DMA           *)
(* ===================================================================== *)

Module WS2812.

(** C conversion of a finite [double] to an integer: the fraction is
    discarded. *)
Definition double_to_Z (f : float) : Z :=
  match Prim2SF f with
  | S754_finite sign m e =>
      let v := if 0 <=? e then Z.pos m * 2 ^ e else Z.pos m / 2 ^ (- e) in
      if sign then - v else v
  | _ => 0
  end.

(** [(float)n] for an [int] [n] of at most 24 bits, widened to [double] for
    the product: both conversions are exact, the value is [n]. *)
Definition float_of_int (n : Z) : float := PrimFloat.of_uint63 (Uint63.of_Z n).

(** [(uint16_t)((2.0 / 3.0) * (float)(ARR_TIM1 + 1))] and the same with
    [1.0 / 3.0]; the quotient is a [double] constant. *)
Definition duty_one (ARR_TIM1 : Z) : Z :=
  double_to_Z (PrimFloat.mul (PrimFloat.div 2 3) (float_of_int (ARR_TIM1 + 1))) mod 2 ^ 16.

Definition duty_zero (ARR_TIM1 : Z) : Z :=
  double_to_Z (PrimFloat.mul (PrimFloat.div 1 3) (float_of_int (ARR_TIM1 + 1))) mod 2 ^ 16.

Inductive HalCall : Set :=
| Call_printf
| Call_Delay (ms : Z)
| Call_PWM_Start_DMA (data : list Z) (length : Z)
| Call_PWM_Stop_DMA
| Call_Error_Handler.

(** Globals of WS2812.c and the period the timer was configured with. *)
Record State : Set := mkState {
  LED_Data : list Z;
  LED_Mod : list Z;
  pwmData : list Z;
  datasentflag : Z;
  ARR_TIM1 : Z;
  htim1_Init_Period : Z;
  hal_trace : list HalCall
}.

Definition with_LED_Data (v : list Z) (s : State) : State :=
  mkState v (LED_Mod s) (pwmData s) (datasentflag s) (ARR_TIM1 s) (htim1_Init_Period s) (hal_trace s).
Definition with_pwmData (v : list Z) (s : State) : State :=
  mkState (LED_Data s) (LED_Mod s) v (datasentflag s) (ARR_TIM1 s) (htim1_Init_Period s) (hal_trace s).
Definition with_datasentflag (v : Z) (s : State) : State :=
  mkState (LED_Data s) (LED_Mod s) (pwmData s) v (ARR_TIM1 s) (htim1_Init_Period s) (hal_trace s).
Definition with_ARR_TIM1 (v : Z) (s : State) : State :=
  mkState (LED_Data s) (LED_Mod s) (pwmData s) (datasentflag s) v (htim1_Init_Period s) (hal_trace s).
Definition log (e : HalCall) (s : State) : State :=
  mkState (LED_Data s) (LED_Mod s) (pwmData s) (datasentflag s) (ARR_TIM1 s) (htim1_Init_Period s)
    (hal_trace s ++ [e]).

(** How a call of [WS2812_Send] ends: the early return, the normal return,
    or [Error_Handler], which does not return. *)
Inductive Outcome : Set := Aborted | Sent | Halted.

(** [WS2812_SetLED] (WS2812.c:77): [int] arguments stored into bytes. *)
Definition WS2812_SetLED (Red Green Blue : Z) (s : State) : State :=
  let d := write 0 0 (LED_Data s) in
  let d := write 1 (Green mod 256) d in
  let d := write 2 (Red mod 256) d in
  let d := write 3 (Blue mod 256) d in
  with_LED_Data d s.

(** [USE_BRIGHTNESS] is 1 in WS2812.h: the colour is taken from
    [LED_Mod]. *)
Definition color_of (s : State) : Z :=
  Z.lor (Z.lor (Z.shiftl (read (LED_Mod s) 1) 16) (Z.shiftl (read (LED_Mod s) 2) 8))
        (read (LED_Mod s) 3).

(** [for (int i = 23; i >= 0; i--)]: the argument [n] is [i + 1]. *)
Fixpoint color_loop (n : nat) (color arr indx : Z) (buf : list Z) : Z * list Z :=
  match n with
  | O => (indx, buf)
  | S i =>
      let v := if negb (Z.land color (Z.shiftl 1 (Z.of_nat i)) =? 0)
               then duty_one arr else duty_zero arr in
      color_loop i color arr (indx + 1) (write indx v buf)
  end.

(** [for (int i = 0; i < 50; i++)]: the argument [n] is [50 - i]. *)
Fixpoint reset_loop (n : nat) (indx : Z) (buf : list Z) : Z * list Z :=
  match n with
  | O => (indx, buf)
  | S k => reset_loop k (indx + 1) (write indx 0 buf)
  end.

(** [HAL_TIM_PWM_PulseFinishedCallback] (WS2812.c:209). *)
Definition HAL_TIM_PWM_PulseFinishedCallback (s : State) : State :=
  with_datasentflag 1 (log Call_PWM_Stop_DMA s).

(** [while (!datasentflag) {}]: the transfer-finished interrupt arrives
    after [polls] further tests of the flag. *)
Fixpoint wait_datasent (polls : nat) (s : State) : State :=
  if negb (datasentflag s =? 0) then s
  else match polls with
       | O => HAL_TIM_PWM_PulseFinishedCallback s
       | S k => wait_datasent k s
       end.

(** [WS2812_Send] (WS2812.c:146).  [dma_ok] is whether
    [HAL_TIM_PWM_Start_DMA] returns [HAL_OK]. *)
Definition WS2812_Send (dma_ok : bool) (polls : nat) (s : State) : Outcome * State :=
  let s := with_ARR_TIM1 (htim1_Init_Period s mod 2 ^ 16) s in
  if ARR_TIM1 s =? 0 then (Aborted, log Call_printf s)
  else
    let color := color_of s in
    let '(indx, buf) := color_loop 24 color (ARR_TIM1 s) 0 (pwmData s) in
    let '(indx, buf) := reset_loop 50 indx buf in
    let s := with_pwmData buf s in
    let s := log (Call_Delay 1) s in
    let s := log (Call_PWM_Start_DMA (pwmData s) 74) s in
    if dma_ok then
      let s := wait_datasent polls s in
      (Sent, with_datasentflag 0 s)
    else (Halted, log Call_Error_Handler s).

(** Rounding to the nearest integer, as the specification words it. *)
Definition round (q : Q) : Z := Qfloor (q + (1 # 2))%Q.

(** The 24 duty values of a frame: the first 24 slots of the buffer. *)
Definition duty_values (s : State) : list Z := firstn 24 (pwmData s).

(** The 50 slots after them. *)
Definition reset_slots (s : State) : list Z := skipn 24 (pwmData s).

(** Bits 23 down to 0 of a colour. *)
Definition bits_msb_first (color : Z) : list bool :=
  map (fun i => Z.testbit color (Z.of_nat i)) (rev (seq 0 24)).

(** A DMA transfer was started. *)
Definition dma_started (s : State) : bool :=
  existsb (fun e => match e with Call_PWM_Start_DMA _ _ => true | _ => false end) (hal_trace s).

(** The duty value the colour loop stores for bit [i] of the colour. *)
Definition duty_of_bit (color arr : Z) (i : nat) : Z :=
  if Z.testbit color (Z.of_nat i) then duty_one arr else duty_zero arr.

(** [f] holds of [a], [a + 1], ..., [a + n - 1]. *)
Fixpoint all_from (n : nat) (a : Z) (f : Z -> bool) : bool :=
  match n with
  | O => true
  | S k => if f a then all_from k (a + 1) f else false
  end.

(** Both duty values of a period are the quotients rounded down. *)
Definition duties_truncate (P : Z) : bool :=
  (duty_one P =? 2 * (P + 1) / 3) && (duty_zero P =? (P + 1) / 3).

(** Example states: LED off with period 1, LED white with period 3. *)
Definition dark : State :=
  mkState [0; 0; 0; 0] [0; 0; 0; 0] (repeat 0 74) 0 0 1 [].

Definition white : State :=
  mkState [0; 255; 255; 255] [0; 255; 255; 255] (repeat 0 74) 0 0 3 [].

(** Bits 7 down to 0 of a byte. *)
Definition byte_bits (v : Z) : list bool :=
  map (fun i => Z.testbit v (Z.of_nat i)) (rev (seq 0 8)).

(** The HAL calls made between state [s] and a later state [s']. *)
Definition calls_since (s s' : State) : list HalCall :=
  skipn (length (hal_trace s)) (hal_trace s').

End WS2812.

(* ===================================================================== *)
(** * W25Qxx_QSPI.c : paged writes to the NOR flash                       *)
(* ===================================================================== *)

Module W25Qxx.

Definition W25Q128_PAGE_SIZE : Z := 256.
Definition W25Q128_SECTOR_SIZE : Z := 4096.

(** What goes out on the OCTOSPI bus.  [data] is the offset of the first
    byte sent, counted from the buffer the caller of [W25Qxx_WriteData]
    passed.  [Poll_Until_Ready] is the loop of
    [W25Qxx_WaitForWriteComplete], which reads status register 1 until
    its BUSY bit is clear; how often it reads is up to the chip. *)
Inductive BusOp : Set :=
| Command (Instruction : Z) (Address : option Z) (NbData : Z)
| Transmit (data : Z) (NbData : Z)
| Poll_Until_Ready.

(** [W25Qxx_WriteEnable] (W25Qxx_QSPI.c:56). *)
Definition W25Qxx_WriteEnable : list BusOp := [Command 0x06 None 0].

(** [W25Qxx_WaitForWriteComplete] (W25Qxx_QSPI.c:144). *)
Definition W25Qxx_WaitForWriteComplete : list BusOp := [Poll_Until_Ready].

(** [W25Qxx_PageProgram] (W25Qxx_QSPI.c:115). *)
Definition W25Qxx_PageProgram (address data size : Z) : list BusOp :=
  [Command 0x02 (Some address) size; Transmit data size] ++ W25Qxx_WaitForWriteComplete.

(** Body of the [while] loop of [W25Qxx_WriteData]: the number of bytes
    written in this round. *)
Definition bytesToWrite (currentAddress remainingBytes : Z) : Z :=
  let pageOffset := currentAddress mod W25Q128_PAGE_SIZE in
  let spaceInPage := W25Q128_PAGE_SIZE - pageOffset in
  if remainingBytes >? spaceInPage then spaceInPage else remainingBytes.

Equations? WriteData_loop (currentAddress data remainingBytes : Z) : list BusOp
  by wf (Z.to_nat remainingBytes) lt :=
  WriteData_loop currentAddress data remainingBytes with Z_gt_dec remainingBytes 0 => {
    | left _ =>
        W25Qxx_WriteEnable
        ++ W25Qxx_PageProgram currentAddress data (bytesToWrite currentAddress remainingBytes)
        ++ W25Qxx_WaitForWriteComplete
        ++ WriteData_loop
             ((currentAddress + bytesToWrite currentAddress remainingBytes) mod 2 ^ 32)
             (data + bytesToWrite currentAddress remainingBytes)
             (remainingBytes - bytesToWrite currentAddress remainingBytes);
    | right _ => [] }.
Proof.
  unfold bytesToWrite, W25Q128_PAGE_SIZE.
  pose proof (Z.mod_pos_bound currentAddress 256 ltac:(lia)).
  destruct (remainingBytes >? 256 - currentAddress mod 256) eqn:E; lia.
Qed.

(** [W25Qxx_WriteData] (W25Qxx_QSPI.c:375): [address] is an [int32_t]
    copied into a [uint32_t], [size] a [uint32_t]. *)
Definition W25Qxx_WriteData (address size : Z) : list BusOp :=
  WriteData_loop (address mod 2 ^ 32) 0 size.

(** The page-program calls of a trace: address, data offset, size. *)
Fixpoint page_programs (t : list BusOp) : list (Z * Z * Z) :=
  match t with
  | [] => []
  | Command 0x02 (Some a) n :: Transmit d _ :: t' => (a, d, n) :: page_programs t'
  | _ :: t' => page_programs t'
  end.

(** The byte range of a page program stays inside one page. *)
Definition within_one_page (c : Z * Z * Z) : Prop :=
  let '(a, _, n) := c in
  1 <= n /\ a mod W25Q128_PAGE_SIZE + n <= W25Q128_PAGE_SIZE.

(** The calls follow each other without gap or overlap, in the flash from
    [a] and in the caller's buffer from [d], and write [n] bytes in all. *)
Fixpoint contiguous (a d n : Z) (cs : list (Z * Z * Z)) : Prop :=
  match cs with
  | [] => n = 0
  | (a', d', k) :: cs' =>
      a' = a /\ d' = d /\ contiguous ((a + k) mod 2 ^ 32) (d + k) (n - k) cs'
  end.

(** The [n] flash addresses from [a] on, as 32-bit addresses. *)
Definition byte_addresses (a n : Z) : list Z :=
  map (fun k => (a + Z.of_nat k) mod 2 ^ 32) (seq 0 (Z.to_nat n)).

(** The [n] offsets from [d] on in the caller's buffer. *)
Definition byte_offsets (d n : Z) : list Z :=
  map (fun k => d + Z.of_nat k) (seq 0 (Z.to_nat n)).

(** Every flash address written by a list of page programs, in order, and
    every buffer offset read. *)
Definition programmed_addresses (cs : list (Z * Z * Z)) : list Z :=
  flat_map (fun c => let '(a, _, n) := c in byte_addresses a n) cs.

Definition transmitted_offsets (cs : list (Z * Z * Z)) : list Z :=
  flat_map (fun c => let '(_, d, n) := c in byte_offsets d n) cs.

(** What [W25Qxx_WriteData] puts on the bus for one page program at
    [a], [d], [n]: write enable, the program, the wait inside
    [W25Qxx_PageProgram], the wait after it. *)
Definition framed (c : Z * Z * Z) : list BusOp :=
  let '(a, d, n) := c in
  [Command 0x06 None 0; Command 0x02 (Some a) n; Transmit d n; Poll_Until_Ready;
   Poll_Until_Ready].

(** A page program starts on a page boundary; it ends on one. *)
Definition starts_page (c : Z * Z * Z) : bool :=
  let '(a, _, _) := c in a mod W25Q128_PAGE_SIZE =? 0.

Definition fills_page (c : Z * Z * Z) : bool :=
  let '(a, _, n) := c in a mod W25Q128_PAGE_SIZE + n =? W25Q128_PAGE_SIZE.

End W25Qxx.

(* ===================================================================== *)
(** * ILI9341.c : colour burst to the TFT                                 *)
(* ===================================================================== *)

Module ILI9341.

Definition BURST_MAX_SIZE : Z := 100.

(** The display bus: chip select and data/command lines, SPI bytes. *)
Inductive BusOp : Set :=
| CS (high : bool)
| DC (high : bool)
| SPI_Transmit (bytes : list Z).

Definition ILI9341_ChipSelect : list BusOp := [CS false].
Definition ILI9341_ChipDeselect : list BusOp := [CS true].
Definition ILI9341_SetCommand : list BusOp := [DC false].
Definition ILI9341_SetData : list BusOp := [DC true].

(** [HAL_SPI_Transmit(hspi, pData, Size, Timeout)]: [Size] is a
    [uint16_t]; the bytes sent are the first [Size] of the buffer. *)
Definition HAL_SPI_Transmit (pData : list Z) (Size : Z) : list BusOp :=
  [SPI_Transmit (firstn (Z.to_nat (Size mod 2 ^ 16)) pData)].

(** [ILI9341_SendCommand] (ILI9341.c:221). *)
Definition ILI9341_SendCommand (cmd : Z) : list BusOp :=
  ILI9341_ChipSelect ++ ILI9341_SetCommand ++ HAL_SPI_Transmit [cmd] 1 ++ ILI9341_ChipDeselect.

(** The size computed at ILI9341.c:601-607; [Size] is a [uint32_t]. *)
Definition Buffer_Size (Size : Z) : Z :=
  if (Size * 2) mod 2 ^ 32 <? BURST_MAX_SIZE then Size else BURST_MAX_SIZE.

(** [for (j = 0; j < Buffer_Size; j += 2)] over [burst_buffer]; [fuel]
    bounds the number of rounds. *)
Fixpoint fill_loop (fuel : nat) (j size chifted Colour : Z) (buf : list Z) : list Z :=
  match fuel with
  | O => buf
  | S k =>
      if j <? size then
        fill_loop k (j + 2) size chifted Colour
          (write (j + 1) (Colour mod 256) (write j chifted buf))
      else buf
  end.

(** [burst_buffer] after the fill loop.  The array has [size] elements;
    their values before the loop do not matter, each is overwritten. *)
Definition burst_buffer (Colour size : Z) : list Z :=
  fill_loop (Z.to_nat size) 0 size ((Colour / 2 ^ 8) mod 256) Colour
    (repeat 0 (Z.to_nat size)).

(** [for (j = 0; j < Sending_in_Block; j++) HAL_SPI_Transmit(...)]. *)
Fixpoint send_blocks (n : nat) (buf : list Z) (size : Z) : list BusOp :=
  match n with
  | O => []
  | S k => HAL_SPI_Transmit buf size ++ send_blocks k buf size
  end.

(** [ILI9341_DrawColourBurst] (ILI9341.c:595). *)
Definition ILI9341_DrawColourBurst (Colour Size : Z) : list BusOp :=
  ILI9341_SendCommand 0x2C ++
  let size := Buffer_Size Size in
  if size =? 0 then []
  else
    let buf := burst_buffer Colour size in
    let Sending_Size := (Size * 2) mod 2 ^ 32 in
    let Sending_in_Block := Sending_Size / size in
    let Remainder_from_block := Sending_Size mod size in
    ILI9341_SetData ++ ILI9341_ChipSelect ++
    (if negb (Sending_in_Block =? 0)
     then send_blocks (Z.to_nat Sending_in_Block) buf size else []) ++
    HAL_SPI_Transmit buf Remainder_from_block ++
    ILI9341_ChipDeselect.

(** The bytes sent while the data/command line is high: pixel data. *)
Fixpoint data_bytes (dc : bool) (t : list BusOp) : list Z :=
  match t with
  | [] => []
  | DC b :: t' => data_bytes b t'
  | CS _ :: t' => data_bytes dc t'
  | SPI_Transmit bs :: t' => (if dc then bs else []) ++ data_bytes dc t'
  end.

Definition colour_bytes (Colour Size : Z) : list Z :=
  data_bytes false (ILI9341_DrawColourBurst Colour Size).

(** [n] pixels of a colour on the wire: high byte, low byte, [n] times. *)
Definition pixels (Colour : Z) (n : nat) : list Z :=
  concat (repeat [(Colour / 2 ^ 8) mod 256; Colour mod 256] n).

Fixpoint list_Z_eqb (a b : list Z) : bool :=
  match a, b with
  | [], [] => true
  | x :: a', y :: b' => (x =? y) && list_Z_eqb a' b'
  | _, _ => false
  end.

(** For one colour and pixel count: the burst is the pixel run exactly
    when the count is even, and it has two bytes per pixel. *)
Definition small_burst_check (Colour N : Z) : bool :=
  Bool.eqb (list_Z_eqb (colour_bytes Colour N) (pixels Colour (Z.to_nat N))) (Z.even N)
  && (Z.of_nat (length (colour_bytes Colour N)) =? 2 * N).

(** ** The rest of the drawing interface *)

(** High and low byte of a 16-bit value, as [uint8_t] conversions of
    [v >> 8] and [v]. *)
Definition hi8 (v : Z) : Z := (v / 2 ^ 8) mod 256.
Definition lo8 (v : Z) : Z := v mod 256.

(** Conversion of an [int] to the [uint16_t] parameter of a callee. *)
Definition u16 (v : Z) : Z := v mod 2 ^ 16.

(** [ILI9341_SendCommandWithParam_8Bit] (ILI9341.c:329); [pSize] is a
    [uint8_t]. *)
Definition ILI9341_SendCommandWithParam_8Bit (cmd : Z) (Params : list Z) (pSize : Z)
    : list BusOp :=
  ILI9341_ChipSelect ++ ILI9341_SetCommand ++ HAL_SPI_Transmit [cmd] 1 ++
  ILI9341_SetData ++ HAL_SPI_Transmit Params pSize ++ ILI9341_ChipDeselect.

(** The loop of [ILI9341_SendCommandWithParam_16Bit] over [txData]:
    [txData[i] = Params[j] << 8; txData[i+1] = Params[j]; j++], both
    stores into [uint8_t]. *)
Fixpoint split16_loop (fuel : nat) (i j pSize : Z) (Params txData : list Z) : list Z :=
  match fuel with
  | O => txData
  | S k =>
      if i <? pSize then
        split16_loop k (i + 2) (j + 1) pSize Params
          (write (i + 1) (read Params j mod 256)
             (write i (Z.shiftl (read Params j) 8 mod 256) txData))
      else txData
  end.

(** [ILI9341_SendCommandWithParam_16Bit] (ILI9341.c:364). *)
Definition ILI9341_SendCommandWithParam_16Bit (cmd : Z) (Params : list Z) (pSize : Z)
    : list BusOp :=
  let txData :=
    split16_loop (Z.to_nat pSize) 0 0 pSize Params (repeat 0 (Z.to_nat pSize)) in
  ILI9341_ChipSelect ++ ILI9341_SetCommand ++ HAL_SPI_Transmit [cmd] 1 ++
  ILI9341_SetData ++ HAL_SPI_Transmit txData pSize ++ ILI9341_ChipDeselect.

(** [ILI9341_ColumnAddressSet] (ILI9341.c:409) and [ILI9341_RowAddressSet]
    (ILI9341.c:425). *)
Definition ILI9341_ColumnAddressSet (SC EC : Z) : list BusOp :=
  ILI9341_SendCommandWithParam_16Bit 0x2A [SC; EC] 4.

Definition ILI9341_RowAddressSet (SC EC : Z) : list BusOp :=
  ILI9341_SendCommandWithParam_16Bit 0x2B [SC; EC] 4.

(** [ILI9341_SendData] (ILI9341.c:446); [pSize] is a [uint32_t]. *)
Definition ILI9341_SendData (Data : list Z) (pSize : Z) : list BusOp :=
  ILI9341_ChipSelect ++ ILI9341_SetData ++ HAL_SPI_Transmit Data pSize ++
  ILI9341_ChipDeselect.

(** [ILI9341_SetAddress] (ILI9341.c:504); the arguments are [uint16_t]. *)
Definition ILI9341_SetAddress (X1 Y1 X2 Y2 : Z) : list BusOp :=
  ILI9341_SendCommandWithParam_8Bit 0x2A [hi8 X1; lo8 X1; hi8 X2; lo8 X2] 4 ++
  ILI9341_SendCommandWithParam_8Bit 0x2B [hi8 Y1; lo8 Y1; hi8 Y2; lo8 Y2] 4.

(** [ILI9341_DrawPixel] (ILI9341.c:860). *)
Definition ILI9341_DrawPixel (x y color : Z) : list BusOp :=
  ILI9341_SetAddress x y x y ++
  ILI9341_SendCommand 0x2C ++
  ILI9341_SendData [hi8 color; lo8 color] 2.

(** The colour computed at ILI9341.c:893 from three [uint8_t], stored in a
    [uint16_t]. *)
Definition rgb565 (r g b : Z) : Z :=
  u16 (Z.lor (Z.lor (Z.shiftl (Z.land r 0xF8) 8) (Z.shiftl (Z.land g 0xFC) 3))
             (Z.shiftr b 3)).

(** [ILI9341_DrawPixelRGB] (ILI9341.c:889). *)
Definition ILI9341_DrawPixelRGB (x y r g b : Z) : list BusOp :=
  ILI9341_SetAddress x y x y ++ ILI9341_DrawPixel x y (rgb565 r g b).

(** [ILI9341_DrawRectangle] (ILI9341.c:769): the coordinates are computed
    in [int] and converted to [uint16_t], the pixel count [w*h] in [int]
    and converted to [uint32_t]. *)
Definition ILI9341_DrawRectangle (x y w h color : Z) : list BusOp :=
  ILI9341_SetAddress x y (u16 (x + w - 1)) (u16 (y + h - 1)) ++
  ILI9341_DrawColourBurst color ((w * h) mod 2 ^ 32).

(** The two globals that hold the size of the screen. *)
Record Screen : Set := mkScreen { ILI9341_WIDTH : Z; ILI9341_HEIGHT : Z }.

(** Their C initialisers. *)
Definition portrait : Screen := mkScreen 240 320.
Definition landscape : Screen := mkScreen 320 240.

(** [ILI9341_FillScreen] (ILI9341.c:531): the product of the two
    [uint16_t] is an [int] converted to [uint32_t]. *)
Definition ILI9341_FillScreen (scr : Screen) (Colour : Z) : list BusOp :=
  ILI9341_SetAddress 0 0 (ILI9341_WIDTH scr) (ILI9341_HEIGHT scr) ++
  ILI9341_DrawColourBurst Colour ((ILI9341_WIDTH scr * ILI9341_HEIGHT scr) mod 2 ^ 32).

(** Bus traffic and waiting, for the functions that call [HAL_Delay]. *)
Inductive Step : Set :=
| Bus (o : BusOp)
| Delay (ms : Z).

Definition SCREEN_VERTICAL_1 : Z := 0.
Definition SCREEN_HORIZONTAL_1 : Z := 1.
Definition SCREEN_VERTICAL_2 : Z := 2.
Definition SCREEN_HORIZONTAL_2 : Z := 3.

(** [ILI9341_SetRotation] (ILI9341.c:658); [Rotation] is a [uint8_t]. *)
Definition ILI9341_SetRotation (Rotation : Z) (scr : Screen) : Screen * list Step :=
  let start := map Bus (ILI9341_SendCommand 0x36) ++ [Delay 1] in
  let finish (data : Z) (scr' : Screen) :=
    (scr', start ++ map Bus (ILI9341_SendData [data] 1)) in
  if Rotation =? SCREEN_VERTICAL_1 then finish (Z.lor 0x40 0x08) (mkScreen 240 320)
  else if Rotation =? SCREEN_HORIZONTAL_1 then finish (Z.lor 0x20 0x08) (mkScreen 320 240)
  else if Rotation =? SCREEN_VERTICAL_2 then finish (Z.lor 0x80 0x08) (mkScreen 240 320)
  else if Rotation =? SCREEN_HORIZONTAL_2 then
    finish (Z.lor (Z.lor (Z.lor 0x40 0x80) 0x20) 0x08) (mkScreen 320 240)
  else (scr, start).

(** [ILI9341_Orientation] (ILI9341.h:51) as the integer the enum holds. *)
Definition ILI9341_PORTRAIT : Z := 0.
Definition ILI9341_LANDSCAPE : Z := 1.
Definition ILI9341_PORTRAIT_INVERTED : Z := 2.
Definition ILI9341_LANDSCAPE_INVERTED : Z := 3.
Definition TEST : Z := 4.
Definition ILI9341_PORTRAIT_TRUE : Z := 5.

(** [ILI9341_SetOrientation] (ILI9341.c:718). *)
Definition ILI9341_SetOrientation (orientation : Z) (scr : Screen) : Screen * list BusOp :=
  let '(madctl, scr') :=
    if orientation =? ILI9341_PORTRAIT then (0x08, mkScreen 240 320)
    else if orientation =? ILI9341_LANDSCAPE then (0x68, mkScreen 320 240)
    else if orientation =? ILI9341_PORTRAIT_INVERTED then (0xC8, mkScreen 240 320)
    else if orientation =? ILI9341_LANDSCAPE_INVERTED then (0xA8, mkScreen 320 240)
    else if orientation =? TEST then (0x28, mkScreen 320 240)
    else if orientation =? ILI9341_PORTRAIT_TRUE then (0x88, mkScreen 240 320)
    else (0, scr) in
  (scr', ILI9341_SendCommandWithParam_8Bit 0x36 [madctl] 1).

(** The loop of [ILI9341_DrawCircleOutline] (ILI9341.c:918): the pairs
    [(x, y)] of the rounds, in order. *)
Equations? circle_rounds (x y decisionOver2 : Z) : list (Z * Z)
  by wf (Z.to_nat (x - y + 1)) lt :=
  circle_rounds x y decisionOver2 with Z_le_dec y x => {
    | left _ =>
        (x, y) ::
        (if decisionOver2 <=? 0
         then circle_rounds x (y + 1) (decisionOver2 + (2 * (y + 1) + 1))
         else circle_rounds (x - 1) (y + 1)
                (decisionOver2 + (2 * ((y + 1) - (x - 1)) + 1)));
    | right _ => [] }.
Proof. all: lia. Qed.

(** The same loop with the number of rounds bounded, for evaluation. *)
Fixpoint circle_loop (fuel : nat) (x y decisionOver2 : Z) : list (Z * Z) :=
  match fuel with
  | O => []
  | S k =>
      if y <=? x then
        (x, y) ::
        (if decisionOver2 <=? 0
         then circle_loop k x (y + 1) (decisionOver2 + (2 * (y + 1) + 1))
         else circle_loop k (x - 1) (y + 1)
                (decisionOver2 + (2 * ((y + 1) - (x - 1)) + 1)))
      else []
  end.

(** The eight pixels of one round, as the arguments of the eight calls
    of [ILI9341_DrawPixel]. *)
Definition octants (x_pos y_pos : Z) (p : Z * Z) : list (Z * Z) :=
  let '(x, y) := p in
  [ (u16 (x_pos + x), u16 (y_pos + y));
    (u16 (x_pos + y), u16 (y_pos + x));
    (u16 (x_pos - y), u16 (y_pos + x));
    (u16 (x_pos - x), u16 (y_pos + y));
    (u16 (x_pos - x), u16 (y_pos - y));
    (u16 (x_pos - y), u16 (y_pos - x));
    (u16 (x_pos + y), u16 (y_pos - x));
    (u16 (x_pos + x), u16 (y_pos - y)) ].

(** The pixels [ILI9341_DrawCircleOutline] draws, in order. *)
Definition outline_pixels (x_pos y_pos r : Z) : list (Z * Z) :=
  flat_map (octants x_pos y_pos) (circle_rounds r 0 (1 - r)).

(** [ILI9341_DrawCircleOutline] (ILI9341.c:911); [r] is a [uint8_t]. *)
Definition ILI9341_DrawCircleOutline (x_pos y_pos r color : Z) : list BusOp :=
  flat_map (fun p => ILI9341_DrawPixel (fst p) (snd p) color) (outline_pixels x_pos y_pos r).

(** [ILI9341_DrawImage] (ILI9341.c:1046): the byte count is an [int]
    converted to [uint32_t]. *)
Definition ILI9341_DrawImage (x y width height : Z) (image : list Z) : list BusOp :=
  ILI9341_SetAddress x y (u16 (x + width - 1)) (u16 (y + height - 1)) ++
  ILI9341_SendCommand 0x2C ++
  ILI9341_SendData image ((width * height * 2) mod 2 ^ 32).

(** What the display receives: every byte sent while the chip is
    selected, with the level of the data/command line ([true]: data). *)
Fixpoint received (selected dc : bool) (t : list BusOp) : list (bool * Z) :=
  match t with
  | [] => []
  | CS high :: t' => received (negb high) dc t'
  | DC high :: t' => received selected high t'
  | SPI_Transmit bs :: t' =>
      (if selected then map (pair dc) bs else []) ++ received selected dc t'
  end.

Definition command (c : Z) : list (bool * Z) := [(false, c)].
Definition data (bs : list Z) : list (bool * Z) := map (pair true) bs.

(** The address window [X1..X2] x [Y1..Y2] as the display receives it. *)
Definition window (X1 Y1 X2 Y2 : Z) : list (bool * Z) :=
  command 0x2A ++ data [X1 / 256; X1 mod 256; X2 / 256; X2 mod 256] ++
  command 0x2B ++ data [Y1 / 256; Y1 mod 256; Y2 / 256; Y2 mod 256].

(** ** ILI9341_DrawBinaryFile *)

(** What the file system answers: whether the volume mounts, whether the
    file opens, and for each row what [f_read] returns: whether it
    succeeded and the bytes it read. *)
Record Card : Type := mkCard {
  mounts : bool;
  opens : bool;
  f_read : nat -> bool * list Z
}.

Inductive FileOp : Set :=
| Call_mountSD
| Call_printf
| Call_f_open
| Call_f_read (btr : Z)
| Call_f_close
| Call_unmountSD
| Draw (ops : list BusOp).

(** The row loop of [ILI9341_DrawBinaryFile]; [n] rows are left, [row]
    is the loop variable (a [uint16_t], as is [height]). *)
Fixpoint rows_loop (card : Card) (n : nat) (row x y width : Z) : list FileOp * bool :=
  match n with
  | O => ([], true)
  | S k =>
      let '(ok, buffer) := f_read card (Z.to_nat row) in
      if negb ok || negb (Z.of_nat (length buffer) =? width * 2)
      then ([Call_f_read (width * 2); Call_printf; Call_f_close], false)
      else
        let '(rest, done) := rows_loop card k (row + 1) x y width in
        (Call_f_read (width * 2) ::
         Draw (ILI9341_DrawImage x (u16 (y + row)) width 1 buffer) :: rest, done)
  end.

(** [ILI9341_DrawBinaryFile] (ILI9341.c:1216). *)
Definition ILI9341_DrawBinaryFile (card : Card) (x y width height : Z) : list FileOp :=
  if negb (mounts card) then [Call_mountSD; Call_printf]
  else if negb (opens card) then [Call_mountSD; Call_f_open; Call_printf]
  else
    let '(ops, done) := rows_loop card (Z.to_nat height) 0 x y width in
    [Call_mountSD; Call_f_open] ++ ops ++
    (if done then [Call_f_close; Call_unmountSD] else []).

(** Example: a file that holds one row of two pixels. *)
Definition one_row_file : Card :=
  mkCard true true (fun r => (true, match r with O => [1; 2; 3; 4] | _ => [] end)).

Definition is_Draw (o : FileOp) : bool :=
  match o with Draw _ => true | _ => false end.
Definition is_f_close (o : FileOp) : bool :=
  match o with Call_f_close => true | _ => false end.
Definition is_unmountSD (o : FileOp) : bool :=
  match o with Call_unmountSD => true | _ => false end.

(** How often a run does something. *)
Definition times (f : FileOp -> bool) (t : list FileOp) : nat := length (filter f t).

(** The bus traffic of a run, in order. *)
Definition drawn (t : list FileOp) : list BusOp :=
  flat_map (fun o => match o with Draw ops => ops | _ => [] end) t.

(** Whether [f_read] delivers row [i] in full. *)
Definition row_ok (card : Card) (width : Z) (i : nat) : bool :=
  let '(ok, buffer) := f_read card i in
  ok && (Z.of_nat (length buffer) =? width * 2).

(** The number of rows, of [n] rows from row [i] on, that are delivered
    in full before the first one that is not. *)
Fixpoint good_rows (card : Card) (width : Z) (i n : nat) : nat :=
  match n with
  | O => O
  | S k => if row_ok card width i then S (good_rows card width (S i) k) else O
  end.

(** The bus traffic of a run that also waits. *)
Definition bus_ops (t : list Step) : list BusOp :=
  flat_map (fun s => match s with Bus o => [o] | Delay _ => [] end) t.

(** The point [(x, y)] of a round lies in the first octant, within half a
    pixel of the circle of radius [r] about the origin. *)
Definition near_circle (r : Z) (p : Z * Z) : bool :=
  let '(x, y) := p in
  (0 <=? y) && (y <=? x) && (x <=? r) &&
  ((2 * r - 1) ^ 2 <=? 4 * (x * x + y * y)) && (4 * (x * x + y * y) <=? (2 * r + 1) ^ 2).

Definition circle_check (r : Z) : bool :=
  forallb (near_circle r) (circle_loop (Z.to_nat (r + 1)) r 0 (1 - r)).

(** The two masks of ILI9341.c:893 keep the upper five and the upper six
    bits of a byte. *)
Definition mask_check (v : Z) : bool :=
  (Z.land v 0xF8 =? 8 * (v / 8)) && (Z.land v 0xFC =? 4 * (v / 4)).

End ILI9341.

(* ===================================================================== *)
(** * Properties of the debounce engine                                   *)
(* ===================================================================== *)

Module UserInput_Facts.
Import UserInput.

Lemma exec_bind {A B : Type} (m : M A) (k : A -> M B) (s : State) :
  exec (bind m k) s = exec (k (fst (m s))) (snd (m s)).
Proof. unfold exec, bind. destruct (m s). reflexivity. Qed.

Lemma truthy_nonzero (v : Z) : v <> 0 -> truthy v = true.
Proof.
  intro H. unfold truthy. destruct (Z.eqb_spec v 0); [contradiction | reflexivity].
Qed.

Lemma eqb0_cases (v : Z) : (v =? 0) = true /\ v = 0 \/ (v =? 0) = false /\ v <> 0.
Proof. destruct (Z.eqb_spec v 0); auto. Qed.

(** Runs a piece of the firmware on a state given by its fields. *)
Ltac hal_eval :=
  unfold exec, HandleFlanke, HAL_Delay, HAL_GPIO_ReadPin, HAL_TIM_SET_COUNTER,
    HAL_TIM_Base_Start_IT, bind, log, gets, modify, ret, when, store, sampled,
    remember_levels;
  cbn [fst snd now with_hal_trace with_Status with_now with_htim6 with_Flanke
       with_LetzterStatus with_debounce_in_progress with_LetzterUserInput
       with_LetzterUserInputPin with_Pending_Flanke
       hal_trace Status assign pin_of GPIOx GPIO_Pin
       of_LEFT of_RIGHT of_UP of_DOWN of_BUTTON of_USER map channels
       LetzterStatus Pending_Flanke Flanke LetzterUserInputPin LetzterUserInput
       debounce_in_progress htim6 ms_counter at_channel CNT CEN UIF].

Ltac levels_eval :=
  cbn [Z.eqb GPIO_PIN_SET GPIO_PIN_RESET Pos.eqb andb orb UserInputs_eqb].

(** Case split on a flag being zero, rewriting the test in the goal. *)
Ltac split_flag v :=
  let E := fresh "E" in
  destruct (eqb0_cases v) as [[E ?] | [E ?]]; [subst v | rewrite ?E]; cbn.

(** ** The latch: edges that arrive during a debounce *)

Lemma latched_HandleUserInputInterrupt lines s u :
  debounce_in_progress s <> 0 ->
  exec (HandleUserInputInterrupt DEBOUNCE_WITH_TIMER lines u) s = s.
Proof.
  intro H. unfold HandleUserInputInterrupt, exec, bind at 1, gets.
  rewrite (truthy_nonzero _ H). reflexivity.
Qed.

Lemma latched_UserInput_Interrupt lines s p :
  debounce_in_progress s <> 0 ->
  exec (UserInput_Interrupt DEBOUNCE_WITH_TIMER lines p) s = s.
Proof.
  intro H. unfold UserInput_Interrupt.
  repeat (match goal with |- context [if ?b then _ else _] => destruct b end;
          [apply latched_HandleUserInputInterrupt; assumption |]).
  reflexivity.
Qed.

Lemma latched_PollingUserInput lines s :
  debounce_in_progress s <> 0 ->
  exec (PollingUserInput DEBOUNCE_WITH_TIMER lines) s = s.
Proof.
  intro H. unfold PollingUserInput, exec, bind at 1, gets.
  rewrite (truthy_nonzero _ H). reflexivity.
Qed.

Lemma latched_HandleMDSLeft lines s :
  debounce_in_progress s <> 0 ->
  exec (HandleMDSLeft DEBOUNCE_WITH_TIMER lines) s =
  with_LetzterStatus
    (assign MDS_LEFT (level lines s (pin_of MDS_LEFT)) (LetzterStatus s))
    (with_hal_trace (hal_trace s ++ [Call_ReadPin (pin_of MDS_LEFT)]) s).
Proof.
  intro H.
  unfold HandleMDSLeft, HAL_GPIO_ReadPin, exec, bind, gets, log, modify, ret, when, level.
  cbn [now with_hal_trace fst snd pin_of at_channel LetzterStatus debounce_in_progress].
  destruct (lines (now s) _); levels_eval;
    destruct (of_LEFT (LetzterStatus s) =? GPIO_PIN_RESET);
    cbn [debounce_in_progress with_hal_trace];
    try rewrite (truthy_nonzero (debounce_in_progress s) H); reflexivity.
Qed.

Lemma latched_deliver lines s d :
  debounce_in_progress s <> 0 ->
  debounce_view (exec (deliver DEBOUNCE_WITH_TIMER lines d) s) = debounce_view s.
Proof.
  intro H. destruct d; cbn [deliver].
  - rewrite latched_UserInput_Interrupt by assumption. reflexivity.
  - rewrite latched_HandleUserInputInterrupt by assumption. reflexivity.
  - rewrite latched_PollingUserInput by assumption. reflexivity.
  - rewrite latched_HandleMDSLeft by assumption. reflexivity.
  - reflexivity.
Qed.

Lemma latched_deliver_all lines ds : forall s,
  debounce_in_progress s <> 0 ->
  debounce_view (deliver_all DEBOUNCE_WITH_TIMER lines ds s) = debounce_view s.
Proof.
  induction ds as [| d ds IH]; intros s H; cbn [deliver_all]; [reflexivity |].
  pose proof (latched_deliver lines s d H) as Hd.
  rewrite IH.
  - exact Hd.
  - unfold debounce_view in Hd. injection Hd as -> _ _ _ _ _. exact H.
Qed.

(** The timer method records the channel and sets the latch. *)
Lemma HandleFlanke_timer_latches lines s pin c ref :
  let s' := exec (HandleFlanke DEBOUNCE_WITH_TIMER lines pin c ref) s in
  debounce_in_progress s' = 1 /\ LetzterUserInput s' = c /\ LetzterUserInputPin s' = pin
  /\ htim6 s' = mkTIM 0 true (UIF (htim6 s))
  /\ Pending_Flanke s' = Pending_Flanke s /\ Flanke s' = Flanke s.
Proof. destruct pin. cbn. repeat split. Qed.

(** C1.  While the latch [debounce_in_progress] is set (timer method), an
    edge delivered through [HandleUserInputInterrupt] (also by way of
    [UserInput_Interrupt]) or [PollingUserInput] leaves the whole state as
    it is; one delivered through [HandleMDSLeft] only reads the LEFT line
    and stores its level as the previous level, so that edge is lost, not
    queued.  Over any sequence of such deliveries the latch, the recorded
    channel and pin, the timer and all pending and confirmed flags stay as
    they are, and the one channel with a debounce in progress is the one
    recorded. *)
Theorem debounce_latch_drops_edges (lines : Z -> Pin -> bool) (s : State) :
  debounce_in_progress s <> 0 ->
  (forall u, exec (HandleUserInputInterrupt DEBOUNCE_WITH_TIMER lines u) s = s)
  /\ (forall p, exec (UserInput_Interrupt DEBOUNCE_WITH_TIMER lines p) s = s)
  /\ exec (PollingUserInput DEBOUNCE_WITH_TIMER lines) s = s
  /\ exec (HandleMDSLeft DEBOUNCE_WITH_TIMER lines) s =
       with_LetzterStatus
         (assign MDS_LEFT (level lines s (pin_of MDS_LEFT)) (LetzterStatus s))
         (with_hal_trace (hal_trace s ++ [Call_ReadPin (pin_of MDS_LEFT)]) s)
  /\ (forall ds,
        let s' := deliver_all DEBOUNCE_WITH_TIMER lines ds s in
        debounce_view s' = debounce_view s
        /\ forall c, in_debounce s' c <-> c = LetzterUserInput s).
Proof.
  intro H. split; [| split; [| split; [| split]]].
  - intro u. apply latched_HandleUserInputInterrupt, H.
  - intro p. apply latched_UserInput_Interrupt, H.
  - apply latched_PollingUserInput, H.
  - apply latched_HandleMDSLeft, H.
  - intros ds s'. pose proof (latched_deliver_all lines ds s H) as V. fold s' in V.
    split; [exact V |]. intro c. unfold in_debounce, debounce_view in *.
    injection V as V1 V2 _ _ _ _. rewrite V1, V2.
    split; [intros [_ E]; congruence | intros ->; split; [assumption | reflexivity]].
Qed.

(** With the debounce of USER_BUTTON in progress, an interrupt on the UP
    line changes nothing. *)
Lemma debounce_latch_drops_edges_witness :
  exec (HandleUserInputInterrupt DEBOUNCE_WITH_TIMER short_press MDS_UP) armed_USER_BUTTON
  = armed_USER_BUTTON.
Proof.
  refine (proj1 (debounce_latch_drops_edges short_press armed_USER_BUTTON _) MDS_UP).
  vm_compute. discriminate.
Defined.

(** ** Polling *)

Lemma sample_all lines (k : M unit) s :
  exec (sample lines MDS_LEFT ;; sample lines MDS_RIGHT ;; sample lines MDS_UP ;;
        sample lines MDS_DOWN ;; sample lines MDS_BUTTON ;; sample lines USER_BUTTON ;; k) s
  = exec k (sampled lines s).
Proof.
  unfold exec, bind, sample, HAL_GPIO_ReadPin, bind, log, gets, modify, ret, sampled, level.
  cbn [fst snd now with_hal_trace with_Status hal_trace Status assign pin_of GPIOx GPIO_Pin
       of_LEFT of_RIGHT of_UP of_DOWN of_BUTTON of_USER map channels
       LetzterStatus Pending_Flanke Flanke LetzterUserInputPin LetzterUserInput
       debounce_in_progress htim6 ms_counter].
  repeat rewrite <- app_assoc. reflexivity.
Qed.

Lemma flanke_erkannt_sampled lines s c :
  In c channels -> flanke_erkannt (sampled lines s) c = qualifying lines s c.
Proof.
  intro H. cbn in H.
  repeat (destruct H as [<- | H]; [reflexivity |]). contradiction.
Qed.

(** The chain of edge tests picks the first qualifying channel. *)
Lemma PollingUserInput_unfold cfg lines s :
  (cfg = DEBOUNCE_WITH_TIMER -> debounce_in_progress s = 0) ->
  exec (PollingUserInput cfg lines) s =
  remember_levels
    (match first_qualifying lines s with
     | Some c => exec (HandleFlanke cfg lines (pin_of c) c (Addr_Flanke c)) (sampled lines s)
     | None => sampled lines s
     end).
Proof.
  intro H. unfold PollingUserInput. rewrite exec_bind. cbn [gets fst snd].
  assert (G : match cfg with
              | DEBOUNCE_WITH_DELAY => false
              | DEBOUNCE_WITH_TIMER => truthy (debounce_in_progress s)
              end = false).
  { destruct cfg; [reflexivity |]. rewrite H; reflexivity. }
  rewrite G. rewrite sample_all. rewrite exec_bind. cbn [gets fst snd].
  rewrite exec_bind.
  rewrite !flanke_erkannt_sampled by (cbn; tauto).
  unfold first_qualifying, channels, find.
  set (q := qualifying lines s).
  assert (R : forall s0,
    exec (modify (fun s1 => with_LetzterStatus (assign MDS_LEFT (at_channel (Status s1) MDS_LEFT) (LetzterStatus s1)) s1) ;;
          modify (fun s1 => with_LetzterStatus (assign MDS_RIGHT (at_channel (Status s1) MDS_RIGHT) (LetzterStatus s1)) s1) ;;
          modify (fun s1 => with_LetzterStatus (assign MDS_UP (at_channel (Status s1) MDS_UP) (LetzterStatus s1)) s1) ;;
          modify (fun s1 => with_LetzterStatus (assign MDS_DOWN (at_channel (Status s1) MDS_DOWN) (LetzterStatus s1)) s1) ;;
          modify (fun s1 => with_LetzterStatus (assign MDS_BUTTON (at_channel (Status s1) MDS_BUTTON) (LetzterStatus s1)) s1) ;;
          modify (fun s1 => with_LetzterStatus (assign USER_BUTTON (at_channel (Status s1) USER_BUTTON) (LetzterStatus s1)) s1)) s0
    = remember_levels s0).
  { intro s0. destruct s0 as [ls [a b c d e f] pf fl lp lu dp t m n tr]. reflexivity. }
  rewrite R.
  destruct (q MDS_LEFT); [reflexivity |].
  destruct (q MDS_RIGHT); [reflexivity |].
  destruct (q MDS_UP); [reflexivity |].
  destruct (q MDS_DOWN); [reflexivity |].
  destruct (q MDS_BUTTON); [reflexivity |].
  destruct (q USER_BUTTON); reflexivity.
Qed.

Lemma new_calls_app s s' l :
  hal_trace s' = hal_trace s ++ l -> new_calls s s' = l.
Proof.
  intro H. unfold new_calls. rewrite H.
  rewrite skipn_app, skipn_all, Nat.sub_diag. reflexivity.
Qed.

Lemma first_qualifying_channel lines s c :
  first_qualifying lines s = Some c -> In c channels.
Proof. intro H. apply (find_some _ _ H). Qed.

Ltac trace_eval :=
  erewrite new_calls_app by (cbn [hal_trace]; repeat rewrite <- app_assoc; reflexivity).

(** C4, as the code has it.  Unless a debounce is in progress under the
    timer method, [PollingUserInput] reads the six lines once each, in the
    order LEFT, RIGHT, UP, DOWN, BUTTON, USER_BUTTON, before any other HAL
    call, stores the six levels as the new previous levels, and begins a
    debounce for exactly one channel: the first one in that order with a
    qualifying transition.  No debounce is begun for any other channel. *)
Theorem PollingUserInput_first_edge_only cfg lines s :
  (cfg = DEBOUNCE_WITH_TIMER -> debounce_in_progress s = 0) ->
  let s' := exec (PollingUserInput cfg lines) s in
  firstn 6 (new_calls s s') = map (fun c => Call_ReadPin (pin_of c)) channels
  /\ Forall (fun c => at_channel (Status s') c = level lines s (pin_of c)
                      /\ at_channel (LetzterStatus s') c = level lines s (pin_of c)) channels
  /\ (forall c, debounce_begun cfg c s s' = true <-> first_qualifying lines s = Some c).
Proof.
  intros H s'. subst s'. rewrite (PollingUserInput_unfold cfg lines s H).
  destruct (first_qualifying lines s) as [c0 |] eqn:Q.
  - apply first_qualifying_channel in Q. cbn in Q.
    destruct cfg.
    + repeat (destruct Q as [<- | Q];
        [ hal_eval;
          match goal with |- context [lines (now s + 50) ?p] =>
            let L := fresh "L" in destruct (lines (now s + 50) p) eqn:L end;
          levels_eval; hal_eval;
          repeat match goal with L : lines _ _ = _ |- _ => rewrite L end;
          levels_eval; hal_eval;
          (split; [ trace_eval; reflexivity
                  | split; [ repeat constructor
                           | intro c; unfold debounce_begun; trace_eval;
                             destruct c; cbn; split; (reflexivity || discriminate) ]])
        | ]).
      contradiction.
    + repeat (destruct Q as [<- | Q];
        [ hal_eval;
          (split; [ trace_eval; reflexivity
                  | split; [ repeat constructor
                           | intro c; unfold debounce_begun; cbn;
                             destruct c; cbn; split; (reflexivity || discriminate) ]])
        | ]).
      contradiction.
  - hal_eval.
    split; [ erewrite new_calls_app by (cbn [hal_trace]; reflexivity); reflexivity |].
    split; [ repeat constructor |].
    intro c. unfold debounce_begun.
    destruct cfg.
    + erewrite new_calls_app by (cbn [hal_trace]; reflexivity).
      destruct c; cbn; split; discriminate.
    + unfold with_LetzterStatus, with_Status, with_hal_trace.
      cbn [debounce_in_progress]. rewrite (H eq_refl). cbn. split; discriminate.
Qed.

(** From start-up with every line high, the first poll begins the debounce
    of LEFT. *)
Lemma PollingUserInput_first_edge_only_witness :
  debounce_begun DEBOUNCE_WITH_TIMER MDS_LEFT init
    (exec (PollingUserInput DEBOUNCE_WITH_TIMER all_high) init) = true.
Proof.
  refine (proj2 (proj2 (proj2
    (PollingUserInput_first_edge_only DEBOUNCE_WITH_TIMER all_high init _)) MDS_LEFT) _).
  - intros _. reflexivity.
  - reflexivity.
Defined.

(** C4, as the claim states it, fails.  From start-up with every line
    high, LEFT and RIGHT both show a rising edge in the same poll and no
    debounce is in progress, yet under neither method is a debounce begun
    for RIGHT, and under the delay method RIGHT is not confirmed. *)
Lemma PollingUserInput_drops_second_edge :
  debounce_in_progress init = 0
  /\ qualifying all_high init MDS_LEFT = true
  /\ qualifying all_high init MDS_RIGHT = true
  /\ debounce_begun DEBOUNCE_WITH_TIMER MDS_RIGHT init
       (exec (PollingUserInput DEBOUNCE_WITH_TIMER all_high) init) = false
  /\ debounce_begun DEBOUNCE_WITH_DELAY MDS_RIGHT init
       (exec (PollingUserInput DEBOUNCE_WITH_DELAY all_high) init) = false
  /\ Confirmed (exec (PollingUserInput DEBOUNCE_WITH_DELAY all_high) init) MDS_RIGHT = 0.
Proof. cbv. repeat split. Qed.

(** ** The busy-wait method *)

(** What [HandleFlanke] does under the delay method for the flag of the
    channel itself: the time advances by 50, the line is read after that,
    and the flag is set when the line is high, or when the channel is
    USER_BUTTON. *)
Lemma HandleFlanke_delay lines s c :
  c <> USER_INPUT_NONE ->
  let s' := exec (HandleFlanke DEBOUNCE_WITH_DELAY lines (pin_of c) c (Addr_Flanke c)) s in
  now s' = now s + 50
  /\ firstn 2 (new_calls s s') = [Call_Delay 50; Call_ReadPin (pin_of c)]
  /\ Confirmed s' c =
       (if lines (now s + 50) (pin_of c) || UserInputs_eqb c USER_BUTTON
        then 1 else Confirmed s c)
  /\ (forall c', c' <> c -> Confirmed s' c' = Confirmed s c')
  /\ Pending_Flanke s' = Pending_Flanke s.
Proof.
  intros Hc s'. subst s'. unfold Confirmed, new_calls.
  destruct c; try contradiction; hal_eval;
    match goal with |- context [lines (now s + 50) ?p] =>
      let L := fresh "L" in destruct (lines (now s + 50) p) eqn:L end;
    levels_eval; hal_eval;
    repeat match goal with L : lines _ _ = _ |- _ => rewrite L end;
    levels_eval; hal_eval;
    (split; [reflexivity |]);
    (split; [repeat rewrite <- app_assoc; rewrite skipn_app, skipn_all, Nat.sub_diag;
             reflexivity |]);
    (split; [reflexivity |]);
    (split; [intros [] Hn; try reflexivity; contradiction | reflexivity]).
Qed.

(** C6, at the input where the code departs from it.  USER_BUTTON was
    last seen high; the line is low at time 0, so the poll sees the falling
    edge, and high again from time 50 on, so the press did not hold.  After
    the 50 units of delay the line reads high, and [USER_BUTTON_Flanke] is
    set all the same. *)
Theorem delay_debounce_confirms_released_USER_BUTTON :
  let s' := exec (PollingUserInput DEBOUNCE_WITH_DELAY short_press) released in
  let s'' := exec (HandleFlanke DEBOUNCE_WITH_DELAY short_press (pin_of USER_BUTTON)
                     USER_BUTTON (Addr_Flanke USER_BUTTON)) released in
  qualifying short_press released USER_BUTTON = true
  /\ now s' = 50
  /\ level short_press s' (pin_of USER_BUTTON) = GPIO_PIN_SET
  /\ Confirmed released USER_BUTTON = 0
  /\ Confirmed s' USER_BUTTON = 1
  /\ Confirmed s'' USER_BUTTON = 1.
Proof. cbv. repeat split. Qed.

(** ** Expiry of the debounce timer *)

(** What the TIM6 callback does, by recorded channel and line level. *)
Lemma timer_expiry lines s :
  let s' := exec (HAL_TIM_PeriodElapsedCallback DEBOUNCE_WITH_TIMER lines TIM6) s in
  let high := lines (now s) (LetzterUserInputPin s) in
  let u := LetzterUserInput s in
  debounce_in_progress s' = 0
  /\ CEN (htim6 s') = false
  /\ Flanke s' = Flanke s
  /\ Pending_Flanke s' =
       match u, high with
       | USER_BUTTON, false => assign USER_BUTTON 1 (Pending_Flanke s)
       | USER_BUTTON, true | USER_INPUT_NONE, _ => Pending_Flanke s
       | c, true => assign c 1 (Pending_Flanke s)
       | _, false => Pending_Flanke s
       end
  /\ (LetzterUserInput s', LetzterUserInputPin s') =
       match u, high with
       | USER_BUTTON, false => (u, LetzterUserInputPin s)
       | _, false => (USER_INPUT_NONE, mkPin None 0)
       | _, true => (u, LetzterUserInputPin s)
       end.
Proof.
  intros s' high u. subst s' high u.
  destruct s as [ls st pf fl [port pin] lu dp t m n tr].
  unfold HAL_TIM_PeriodElapsedCallback, HandleDebouncedUserInput, Realtime_Loop,
    HAL_TIM_Base_Stop, HAL_TIM_CLEAR_FLAG.
  hal_eval.
  destruct (lines n _) eqn:L; destruct lu;
    levels_eval; hal_eval; rewrite ?L; levels_eval; hal_eval; repeat split.
Qed.

(** C2, at the input where the code departs from it.  USER_BUTTON is
    pressed (line low) when its interrupt begins the debounce, and
    released (line high) when TIM6 expires 50 time units later.  No pending
    flag is set, the latch is cleared and the timer stopped, but the
    recorded channel and pin stay USER_BUTTON and its pin: they are not
    cleared to none. *)
Theorem timer_expiry_keeps_USER_BUTTON_recorded :
  let s' := exec (HAL_TIM_PeriodElapsedCallback DEBOUNCE_WITH_TIMER short_press TIM6)
                 at_expiry in
  level short_press armed_USER_BUTTON (pin_of USER_BUTTON) = GPIO_PIN_RESET
  /\ in_debounce at_expiry USER_BUTTON
  /\ level short_press at_expiry (LetzterUserInputPin at_expiry) = GPIO_PIN_SET
  /\ Pending_Flanke s' = all_zero
  /\ LetzterUserInput s' = USER_BUTTON
  /\ LetzterUserInputPin s' = pin_of USER_BUTTON
  /\ debounce_in_progress s' = 0
  /\ CEN (htim6 s') = false.
Proof. cbv. repeat split. discriminate. Qed.

(** ** Promotion of pending flags *)

(** C10.  One call of [HandlePendingUserInput] sets the confirmed flag of
    exactly the channels whose pending flag was set and leaves the other
    confirmed flags as they were, clears every pending flag, clears no
    confirmed flag that was set, and a second call right after changes
    nothing. *)
Theorem HandlePendingUserInput_promotes (s : State) :
  let s' := exec HandlePendingUserInput s in
  (forall c, Confirmed s' c = (if truthy (Pending s c) then 1 else Confirmed s c))
  /\ (forall c, Pending s' c = 0)
  /\ (forall c, implb (truthy (Confirmed s c)) (truthy (Confirmed s' c)) = true)
  /\ exec HandlePendingUserInput s' = s'.
Proof.
  destruct s as [ls st [p1 p2 p3 p4 p5 p6] [f1 f2 f3 f4 f5 f6] lp lu d t m n tr].
  unfold Confirmed, Pending, exec, HandlePendingUserInput, promote, when, store, bind,
    ret, gets, modify, truthy.
  cbn.
  split_flag p1; split_flag p2; split_flag p3; split_flag p4; split_flag p5;
    split_flag p6;
    (repeat split;
     [ intros []; cbn;
       repeat match goal with H : (_ =? 0) = false |- _ => rewrite H; clear H end;
       reflexivity
     | intros []; reflexivity
     | intros []; cbn; try reflexivity;
       match goal with |- implb (negb (?f =? 0)) _ = true => destruct (f =? 0) end;
       reflexivity ]).
Qed.

(** ** Reporting: promotion and reset *)

Lemma HandlePendingUserInput_exec (s : State) :
  exec HandlePendingUserInput s =
  with_Pending_Flanke all_zero (with_Flanke (promoted (Pending_Flanke s) (Flanke s)) s).
Proof.
  destruct s as [ls st [p1 p2 p3 p4 p5 p6] [f1 f2 f3 f4 f5 f6] lp lu d t m n tr].
  unfold promoted, exec, HandlePendingUserInput, promote, when, store, bind,
    ret, gets, modify, truthy.
  cbn.
  split_flag p1; split_flag p2; split_flag p3; split_flag p4; split_flag p5;
    split_flag p6; reflexivity.
Qed.

Lemma ResetFlanken_exec (s : State) : exec ResetFlanken s = with_Flanke all_zero s.
Proof. destruct s as [ls st pf [f1 f2 f3 f4 f5 f6] lp lu d t m n tr]. reflexivity. Qed.

Lemma promoted_at (p f : PerChannel) (c : UserInputs) :
  at_channel (promoted p f) c = if truthy (at_channel p c) then 1 else at_channel f c.
Proof. destruct c; reflexivity. Qed.

(** X6.  [ResetFlanken] clears the six confirmed flags and leaves the
    pending flags alone, so an event that became pending before the reset
    is confirmed by the next [HandlePendingUserInput]; after one more
    reset and promotion it is gone: an event is confirmed for one round
    only. *)
Theorem events_reported_once (s : State) (c : UserInputs) :
  let s1 := exec ResetFlanken s in
  let s2 := exec HandlePendingUserInput s1 in
  let s3 := exec HandlePendingUserInput (exec ResetFlanken s2) in
  Confirmed s1 c = 0
  /\ Pending s1 c = Pending s c
  /\ Confirmed s2 c = (if truthy (Pending s c) then 1 else 0)
  /\ Confirmed s3 c = 0
  /\ Pending s3 c = 0.
Proof.
  cbv zeta. rewrite !HandlePendingUserInput_exec, !ResetFlanken_exec.
  unfold Confirmed, Pending.
  cbn [Flanke Pending_Flanke with_Flanke with_Pending_Flanke].
  rewrite !promoted_at. destruct c; repeat split; try reflexivity.
Qed.

(** ** Interrupt dispatch *)

Lemma HandleUserInputInterrupt_timer lines s u :
  debounce_in_progress s = 0 ->
  exec (HandleUserInputInterrupt DEBOUNCE_WITH_TIMER lines u) s =
  if existsb (UserInputs_eqb u) exti_channels
  then exec (HandleFlanke DEBOUNCE_WITH_TIMER lines (pin_of u) u (Addr_Pending_Flanke u)) s
  else s.
Proof.
  intro H. unfold HandleUserInputInterrupt. rewrite exec_bind. cbn [gets fst snd].
  rewrite H. change (truthy 0) with false. cbv iota.
  destruct u; reflexivity.
Qed.

Lemma UserInput_Interrupt_dispatch cfg lines p :
  UserInput_Interrupt cfg lines p =
  match find (fun c => GPIO_Pin (pin_of c) =? p)
          [MDS_UP; MDS_BUTTON; MDS_RIGHT; MDS_DOWN; USER_BUTTON] with
  | Some c => HandleUserInputInterrupt cfg lines c
  | None => ret tt
  end.
Proof.
  unfold UserInput_Interrupt. cbn [find pin_of GPIO_Pin].
  unfold MDS_UP_Pin, MDS_BUTTON_Pin, MDS_RIGHT_Pin, MDS_DOWN_Pin, USER_BUTTON_Pin.
  rewrite !(Z.eqb_sym _ p).
  destruct (p =? GPIO_PIN_15); [reflexivity |].
  destruct (p =? GPIO_PIN_14); [reflexivity |].
  destruct (p =? GPIO_PIN_5); [reflexivity |].
  destruct (p =? GPIO_PIN_10); [reflexivity |].
  destruct (p =? GPIO_PIN_13); reflexivity.
Qed.

Lemma UserInput_Interrupt_channel lines s c :
  debounce_in_progress s = 0 -> In c exti_channels ->
  exec (UserInput_Interrupt DEBOUNCE_WITH_TIMER lines (GPIO_Pin (pin_of c))) s =
  exec (HandleFlanke DEBOUNCE_WITH_TIMER lines (pin_of c) c (Addr_Pending_Flanke c)) s.
Proof.
  intros H I. cbn in I.
  repeat (destruct I as [<- | I];
          [rewrite UserInput_Interrupt_dispatch;
           match goal with
           | |- context [find ?f ?l] =>
               let r := eval vm_compute in (find f l) in change (find f l) with r
           end; cbv iota beta;
           rewrite HandleUserInputInterrupt_timer by exact H; reflexivity |]).
  contradiction.
Qed.

(** X1.  Under the timer method with no debounce in progress,
    [UserInput_Interrupt] begins a debounce for channel [c] exactly when
    [c] is one of RIGHT, UP, DOWN, BUTTON, USER_BUTTON and the pin mask it
    is called with is the mask of the pin of [c] in main.h; it records the
    pin of the channel it records; for any other mask it does nothing.  No
    mask begins a debounce for MDS_LEFT. *)
Theorem UserInput_Interrupt_begins_debounce lines s p c :
  debounce_in_progress s = 0 ->
  let s' := exec (UserInput_Interrupt DEBOUNCE_WITH_TIMER lines p) s in
  (debounce_begun DEBOUNCE_WITH_TIMER c s s' = true <->
   In c exti_channels /\ GPIO_Pin (pin_of c) = p)
  /\ (debounce_in_progress s' <> 0 -> LetzterUserInputPin s' = pin_of (LetzterUserInput s'))
  /\ ((forall c', In c' exti_channels -> GPIO_Pin (pin_of c') <> p) -> s' = s).
Proof.
  intros H s'. subst s'.
  destruct (find (fun c => GPIO_Pin (pin_of c) =? p) exti_channels) as [c0 |] eqn:F.
  - apply find_some in F. destruct F as [I0 P]. apply Z.eqb_eq in P. subst p.
    rewrite UserInput_Interrupt_channel by assumption.
    destruct (HandleFlanke_timer_latches lines s (pin_of c0) c0 (Addr_Pending_Flanke c0))
      as (L1 & L2 & L3 & _).
    split; [| split].
    + unfold debounce_begun. rewrite L1, L2. change (truthy 1) with true. cbn [andb].
      cbn in I0.
      repeat (destruct I0 as [<- | I0];
        [ destruct c; cbn; (split;
            [ intro E; first [discriminate E | (split; [tauto | reflexivity])]
            | intros [E1 E2]; first [reflexivity | exfalso; vm_compute in E2;
              first [ discriminate E2 | intuition discriminate ] ] ]) |]).
      contradiction.
    + intros _. rewrite L2, L3. reflexivity.
    + intro K. exfalso. exact (K c0 I0 eq_refl).
  - pose proof (find_none _ _ F) as N.
    assert (E : exec (UserInput_Interrupt DEBOUNCE_WITH_TIMER lines p) s = s).
    { rewrite UserInput_Interrupt_dispatch.
      destruct (find _ [MDS_UP; MDS_BUTTON; MDS_RIGHT; MDS_DOWN; USER_BUTTON]) as [c1 |] eqn:F1;
        [| reflexivity].
      apply find_some in F1. destruct F1 as [I1 P1].
      rewrite N in P1; [discriminate |]. cbn in I1 |- *. tauto. }
    rewrite E. unfold debounce_begun. rewrite H. cbn [truthy Z.eqb negb andb].
    split; [| split].
    + split; [discriminate |]. intros [E1 E2].
      specialize (N c E1). cbv beta in N. rewrite E2, Z.eqb_refl in N. discriminate.
    + intro K. contradiction.
    + reflexivity.
Qed.

(** An interrupt on line 5 at start-up begins the debounce of RIGHT. *)
Lemma UserInput_Interrupt_begins_debounce_witness :
  debounce_begun DEBOUNCE_WITH_TIMER MDS_RIGHT init
    (exec (UserInput_Interrupt DEBOUNCE_WITH_TIMER all_high GPIO_PIN_5) init) = true.
Proof.
  refine (proj2 (proj1 (UserInput_Interrupt_begins_debounce all_high init GPIO_PIN_5
                          MDS_RIGHT _)) _).
  - reflexivity.
  - split; [cbn; tauto | reflexivity].
Defined.

(** ** A debounce from interrupt to report *)

(** X2.  Under the timer method with no debounce in progress, an interrupt
    for one of the five interrupt channels puts that channel in debounce;
    whatever is delivered before the timer expires changes nothing of it;
    the TIM6 callback followed by [HandlePendingUserInput] then confirms
    the channel exactly when its line is at the active level (low for
    USER_BUTTON, high otherwise) at the time of the callback, or its
    pending flag had been set before.  The latch is clear again, and the
    other channels are confirmed only by their own earlier pending
    flags. *)
Theorem timer_debounce_end_to_end lines s c ds :
  debounce_in_progress s = 0 -> In c exti_channels ->
  let s1 := exec (UserInput_Interrupt DEBOUNCE_WITH_TIMER lines (GPIO_Pin (pin_of c))) s in
  let s2 := deliver_all DEBOUNCE_WITH_TIMER lines ds s1 in
  let s3 := exec (HAL_TIM_PeriodElapsedCallback DEBOUNCE_WITH_TIMER lines TIM6) s2 in
  let s4 := exec HandlePendingUserInput s3 in
  in_debounce s2 c
  /\ debounce_in_progress s4 = 0
  /\ Confirmed s4 c =
       (if asserted lines (now s2) c || truthy (Pending s c) then 1 else Confirmed s c)
  /\ (forall c', c' <> c ->
        Confirmed s4 c' = (if truthy (Pending s c') then 1 else Confirmed s c')).
Proof.
  intros H I s1 s2 s3 s4.
  assert (E1 : s1 = exec (HandleFlanke DEBOUNCE_WITH_TIMER lines (pin_of c) c
                            (Addr_Pending_Flanke c)) s)
    by (apply UserInput_Interrupt_channel; assumption).
  destruct (HandleFlanke_timer_latches lines s (pin_of c) c (Addr_Pending_Flanke c))
    as (L1 & L2 & L3 & _ & L5 & L6).
  rewrite <- E1 in L1, L2, L3, L5, L6.
  assert (V : debounce_view s2 = debounce_view s1).
  { apply latched_deliver_all. rewrite L1. discriminate. }
  unfold debounce_view in V. injection V as V1 V2 V3 _ V5 V6.
  destruct (timer_expiry lines s2) as (T1 & _ & T3 & T4 & _).
  fold s3 in T1, T3, T4.
  rewrite V2, V3, L2, L3 in T4. rewrite V5, L5 in T4. rewrite V6, L6 in T3.
  assert (P4 : Flanke s4 = promoted (Pending_Flanke s3) (Flanke s3)).
  { subst s4. rewrite HandlePendingUserInput_exec. reflexivity. }
  assert (D4 : debounce_in_progress s4 = 0).
  { subst s4. rewrite HandlePendingUserInput_exec. exact T1. }
  split; [| split; [exact D4 | ]].
  - split; [rewrite V1, L1; discriminate | rewrite V2; exact L2].
  - unfold Confirmed, Pending. rewrite P4, T3, T4. unfold asserted.
    cbn in I.
    repeat (destruct I as [<- | I];
      [ split;
        [ rewrite promoted_at; cbn [UserInputs_eqb];
          destruct (lines (now s2) _); cbn [negb orb at_channel assign of_LEFT of_RIGHT of_UP
            of_DOWN of_BUTTON of_USER]; try reflexivity;
          destruct (truthy _); reflexivity
        | intros c' N; rewrite promoted_at;
          destruct (lines (now s2) _); destruct c'; try contradiction; reflexivity ] |]).
    contradiction.
Qed.

(** UP held high: confirmed after the interrupt, 50 time units, a poll
    that is ignored, the timer callback and the promotion. *)
Lemma timer_debounce_end_to_end_witness :
  Confirmed
    (exec HandlePendingUserInput
       (exec (HAL_TIM_PeriodElapsedCallback DEBOUNCE_WITH_TIMER all_high TIM6)
          (deliver_all DEBOUNCE_WITH_TIMER all_high [Elapse 50; By_PollingUserInput]
             (exec (UserInput_Interrupt DEBOUNCE_WITH_TIMER all_high GPIO_PIN_15) init))))
    MDS_UP = 1.
Proof.
  refine (proj1 (proj2 (proj2
    (timer_debounce_end_to_end all_high init MDS_UP [Elapse 50; By_PollingUserInput] _ _)))).
  - reflexivity.
  - cbn. tauto.
Defined.

(** ** The polled LEFT line *)

Lemma HandleMDSLeft_unfold cfg lines s :
  debounce_in_progress s = 0 ->
  exec (HandleMDSLeft cfg lines) s =
  let s1 := with_hal_trace (hal_trace s ++ [Call_ReadPin (pin_of MDS_LEFT)]) s in
  let s2 := if qualifying lines s MDS_LEFT
            then exec (HandleFlanke cfg lines (pin_of MDS_LEFT) MDS_LEFT (Addr_Flanke MDS_LEFT)) s1
            else s1 in
  with_LetzterStatus (assign MDS_LEFT (level lines s (pin_of MDS_LEFT)) (LetzterStatus s2)) s2.
Proof.
  intro H. unfold HandleMDSLeft. rewrite exec_bind.
  change (HAL_GPIO_ReadPin lines MDS_LEFT_GPIO_Port MDS_LEFT_Pin s)
    with (level lines s (pin_of MDS_LEFT),
          with_hal_trace (hal_trace s ++ [Call_ReadPin (pin_of MDS_LEFT)]) s).
  cbn [fst snd]. rewrite exec_bind. cbn [gets fst snd]. rewrite exec_bind.
  change (at_channel (LetzterStatus (with_hal_trace ?t s)) MDS_LEFT)
    with (at_channel (LetzterStatus s) MDS_LEFT).
  change ((level lines s (pin_of MDS_LEFT) =? GPIO_PIN_SET) &&
          (at_channel (LetzterStatus s) MDS_LEFT =? GPIO_PIN_RESET))
    with (qualifying lines s MDS_LEFT).
  cbv zeta.
  destruct (qualifying lines s MDS_LEFT); cbn [when].
  - unfold bind at 1. cbn [gets].
    change (debounce_in_progress (with_hal_trace ?t s)) with (debounce_in_progress s).
    rewrite H. change (negb (truthy 0)) with true. cbn [when].
    reflexivity.
  - reflexivity.
Qed.

(** X3.  With no debounce in progress (timer method, the one
    [HandleMDSLeft] is built with), [HandleMDSLeft] stores the level of
    the LEFT line as its previous level and begins a debounce for LEFT
    exactly when the line is high and its previous level was low; when it
    begins none, latch, recorded channel, timer and flags are as before. *)
Theorem HandleMDSLeft_edge lines s :
  debounce_in_progress s = 0 ->
  let s' := exec (HandleMDSLeft DEBOUNCE_WITH_TIMER lines) s in
  at_channel (LetzterStatus s') MDS_LEFT = level lines s (pin_of MDS_LEFT)
  /\ debounce_begun DEBOUNCE_WITH_TIMER MDS_LEFT s s' = qualifying lines s MDS_LEFT
  /\ (qualifying lines s MDS_LEFT = false -> debounce_view s' = debounce_view s).
Proof.
  intros H s'. subst s'. rewrite (HandleMDSLeft_unfold DEBOUNCE_WITH_TIMER lines s H).
  cbv zeta. split; [reflexivity |].
  destruct (qualifying lines s MDS_LEFT).
  - split; [reflexivity | discriminate].
  - split; [| reflexivity].
    unfold debounce_begun. cbn. rewrite H. reflexivity.
Qed.

Lemma HandleMDSLeft_edge_witness :
  debounce_begun DEBOUNCE_WITH_TIMER MDS_LEFT init
    (exec (HandleMDSLeft DEBOUNCE_WITH_TIMER all_high) init) =
  qualifying all_high init MDS_LEFT.
Proof.
  refine (proj1 (proj2 (HandleMDSLeft_edge all_high init _))).
  reflexivity.
Defined.

(** ** Polling at rest, and polling with the busy-wait *)

Lemma steady_no_edge lines s :
  (forall c, In c channels -> at_channel (LetzterStatus s) c = level lines s (pin_of c)) ->
  first_qualifying lines s = None.
Proof.
  intro L. unfold first_qualifying, channels, find, qualifying.
  rewrite (L MDS_LEFT), (L MDS_RIGHT), (L MDS_UP), (L MDS_DOWN), (L MDS_BUTTON),
    (L USER_BUTTON) by (cbn; tauto).
  unfold level.
  repeat match goal with |- context [lines (now s) ?p] => destruct (lines (now s) p) end;
    reflexivity.
Qed.

(** X4.  A poll that finds every line at the level stored from the
    previous poll begins no debounce and confirms nothing: latch, recorded
    channel, timer, pending and confirmed flags and the stored levels are
    as before, no time passes, and the only HAL calls are the six reads.
    A button that is held gives one event, not one per poll. *)
Theorem PollingUserInput_steady cfg lines s :
  (cfg = DEBOUNCE_WITH_TIMER -> debounce_in_progress s = 0) ->
  (forall c, In c channels -> at_channel (LetzterStatus s) c = level lines s (pin_of c)) ->
  let s' := exec (PollingUserInput cfg lines) s in
  debounce_view s' = debounce_view s
  /\ now s' = now s
  /\ LetzterStatus s' = LetzterStatus s
  /\ new_calls s s' = map (fun c => Call_ReadPin (pin_of c)) channels.
Proof.
  intros H L s'. subst s'. rewrite (PollingUserInput_unfold cfg lines s H).
  rewrite (steady_no_edge lines s L).
  split; [reflexivity | split; [reflexivity | split]].
  - pose proof (L MDS_LEFT ltac:(cbn; tauto)). pose proof (L MDS_RIGHT ltac:(cbn; tauto)).
    pose proof (L MDS_UP ltac:(cbn; tauto)). pose proof (L MDS_DOWN ltac:(cbn; tauto)).
    pose proof (L MDS_BUTTON ltac:(cbn; tauto)). pose proof (L USER_BUTTON ltac:(cbn; tauto)).
    destruct s as [[l1 l2 l3 l4 l5 l6] st pf fl lp lu dp t m n tr].
    cbn in *. congruence.
  - apply new_calls_app. reflexivity.
Qed.

(** At start-up with every line low. *)
Lemma PollingUserInput_steady_witness :
  debounce_view (exec (PollingUserInput DEBOUNCE_WITH_TIMER (fun _ _ => false)) init) =
  debounce_view init.
Proof.
  refine (proj1 (PollingUserInput_steady DEBOUNCE_WITH_TIMER (fun _ _ => false) init _ _)).
  - intros _. reflexivity.
  - intros c I. cbn in I.
    repeat (destruct I as [<- | I]; [reflexivity |]). contradiction.
Defined.

(** X5.  Under the busy-wait method a poll that finds a qualifying
    transition takes 50 time units and confirms its first such channel
    exactly when that line reads high after the wait, USER_BUTTON always;
    the flags of the other channels and all pending flags are as
    before. *)
Theorem PollingUserInput_delay_confirms lines s c :
  first_qualifying lines s = Some c ->
  let s' := exec (PollingUserInput DEBOUNCE_WITH_DELAY lines) s in
  now s' = now s + 50
  /\ Confirmed s' c =
       (if lines (now s + 50) (pin_of c) || UserInputs_eqb c USER_BUTTON
        then 1 else Confirmed s c)
  /\ (forall c', c' <> c -> Confirmed s' c' = Confirmed s c')
  /\ Pending_Flanke s' = Pending_Flanke s.
Proof.
  intros Q s'. subst s'.
  rewrite (PollingUserInput_unfold DEBOUNCE_WITH_DELAY lines s) by discriminate.
  rewrite Q.
  assert (Hc : c <> USER_INPUT_NONE).
  { apply first_qualifying_channel in Q. intros ->. cbn in Q. intuition discriminate. }
  destruct (HandleFlanke_delay lines (sampled lines s) c Hc) as (D1 & _ & D3 & D4 & D5).
  repeat split; assumption.
Qed.

Lemma PollingUserInput_delay_confirms_witness :
  Confirmed (exec (PollingUserInput DEBOUNCE_WITH_DELAY all_high) init) MDS_LEFT = 1.
Proof.
  refine (proj1 (proj2 (PollingUserInput_delay_confirms all_high init MDS_LEFT _))).
  reflexivity.
Defined.

(** ** One round of the main loop *)




(** ** The 1 ms tick *)

Lemma Realtime_Loop_exec (s : State) :
  exec Realtime_Loop s =
  let s1 := with_ms_counter ((ms_counter s + 1) mod 2 ^ 32) s in
  if ((ms_counter s + 1) mod 2 ^ 32) mod 1000 =? 0
  then with_hal_trace (hal_trace s ++ [Call_TogglePin]) s1 else s1.
Proof.
  unfold Realtime_Loop, exec, bind, modify, gets, when, log, ret.
  cbn [with_ms_counter ms_counter hal_trace]. cbv zeta.
  destruct (_ =? 0); reflexivity.
Qed.

Lemma TIM7_callback cfg lines s :
  exec (HAL_TIM_PeriodElapsedCallback cfg lines TIM7) s = exec Realtime_Loop s.
Proof. destruct cfg; reflexivity. Qed.

Lemma toggles_app (a b : list HalCall) :
  Z.of_nat (length (filter (fun e => match e with Call_TogglePin => true | _ => false end)
                      (a ++ b))) =
  Z.of_nat (length (filter (fun e => match e with Call_TogglePin => true | _ => false end) a))
  + Z.of_nat (length (filter (fun e => match e with Call_TogglePin => true | _ => false end) b)).
Proof. rewrite filter_app, length_app. lia. Qed.

Lemma tick_step cfg lines s :
  0 <= ms_counter s -> ms_counter s + 1 < 2 ^ 32 ->
  let s' := exec (HAL_TIM_PeriodElapsedCallback cfg lines TIM7) s in
  ms_counter s' = ms_counter s + 1
  /\ toggles s' = toggles s + (if (ms_counter s + 1) mod 1000 =? 0 then 1 else 0)
  /\ debounce_view s' = debounce_view s.
Proof.
  intros H0 H1 s'. subst s'. rewrite TIM7_callback, Realtime_Loop_exec. cbv zeta.
  rewrite (Z.mod_small (ms_counter s + 1)) by lia.
  unfold toggles.
  destruct ((ms_counter s + 1) mod 1000 =? 0).
  - cbn [with_hal_trace with_ms_counter hal_trace ms_counter].
    rewrite toggles_app. cbn [filter length]. repeat split; lia.
  - cbn [with_ms_counter hal_trace]. repeat split; lia.
Qed.

(** X8.  [n] period interrupts of TIM7, as long as the 32-bit counter
    does not wrap, advance the millisecond counter by [n] and toggle the
    LED once for every multiple of 1000 the counter reaches; they touch
    nothing of the debounce. *)
Theorem Realtime_toggles_every_1000 cfg lines (n : nat) : forall s,
  0 <= ms_counter s -> ms_counter s + Z.of_nat n < 2 ^ 32 ->
  let s' := ticks cfg lines n s in
  ms_counter s' = ms_counter s + Z.of_nat n
  /\ toggles s' - toggles s = (ms_counter s + Z.of_nat n) / 1000 - ms_counter s / 1000
  /\ debounce_view s' = debounce_view s.
Proof.
  induction n as [| n IH]; intros s H0 H1.
  - cbn. rewrite Z.add_0_r. repeat split; lia.
  - cbn [ticks]. cbv zeta.
    destruct (tick_step cfg lines s H0 ltac:(lia)) as (T1 & T2 & T3).
    destruct (IH (exec (HAL_TIM_PeriodElapsedCallback cfg lines TIM7) s)
                ltac:(lia) ltac:(lia)) as (I1 & I2 & I3).
    rewrite I1, I3, T1, T3. split; [lia | split; [| reflexivity]].
    rewrite T1 in I2.
    replace (ms_counter s + Z.of_nat (S n)) with (ms_counter s + 1 + Z.of_nat n) by lia.
    assert (K : (ms_counter s + 1) / 1000 =
                ms_counter s / 1000 + (if (ms_counter s + 1) mod 1000 =? 0 then 1 else 0)).
    { pose proof (Z.div_mod (ms_counter s) 1000 ltac:(lia)).
      pose proof (Z.mod_pos_bound (ms_counter s) 1000 ltac:(lia)).
      pose proof (Z.div_mod (ms_counter s + 1) 1000 ltac:(lia)).
      pose proof (Z.mod_pos_bound (ms_counter s + 1) 1000 ltac:(lia)).
      destruct (Z.eqb_spec ((ms_counter s + 1) mod 1000) 0); lia. }
    lia.
Qed.

(** Two seconds after start-up. *)
Lemma Realtime_toggles_every_1000_witness :
  toggles (ticks DEBOUNCE_WITH_TIMER all_high 2000 init) - toggles init =
  (ms_counter init + Z.of_nat 2000) / 1000 - ms_counter init / 1000.
Proof.
  refine (proj1 (proj2 (Realtime_toggles_every_1000 DEBOUNCE_WITH_TIMER all_high 2000 init _ _)));
    cbn; lia.
Defined.

End UserInput_Facts.

(* ===================================================================== *)
(** * Properties of the WS2812 encoder                                    *)
(* ===================================================================== *)

Module WS2812_Facts.
Import WS2812.

(** [color & (1 << i)] tests bit [i] of the colour. *)
Lemma land_bit (color : Z) (i : nat) :
  negb (Z.land color (Z.shiftl 1 (Z.of_nat i)) =? 0) = Z.testbit color (Z.of_nat i).
Proof.
  rewrite Z.shiftl_1_l.
  destruct (Z.testbit color (Z.of_nat i)) eqn:T.
  - apply negb_true_iff, Z.eqb_neq. intro E.
    assert (B : Z.testbit (Z.land color (2 ^ Z.of_nat i)) (Z.of_nat i) = true).
    { rewrite Z.land_spec, T, Z.pow2_bits_true by lia. reflexivity. }
    rewrite E, Z.bits_0 in B. discriminate.
  - apply negb_false_iff, Z.eqb_eq. apply Z.bits_inj'. intros n Hn.
    rewrite Z.land_spec, Z.bits_0.
    destruct (Z.eq_dec n (Z.of_nat i)) as [-> | Hne].
    + rewrite T. reflexivity.
    + rewrite Z.pow2_bits_false by lia. apply andb_false_r.
Qed.

Lemma all_from_spec (f : Z -> bool) (n : nat) : forall a,
  all_from n a f = true -> forall x, a <= x < a + Z.of_nat n -> f x = true.
Proof.
  induction n as [| n IH]; intros a H x Hx; [lia |].
  cbn [all_from] in H. destruct (f a) eqn:Fa; [| discriminate].
  destruct (Z.eq_dec x a) as [-> | Hne]; [exact Fa |].
  apply (IH (a + 1) H). lia.
Qed.

(** The two products are evaluated in binary64 for each of the 65535
    periods a 16-bit auto-reload register can hold. *)
Lemma duties_checked : all_from (Z.to_nat 65535) 1 duties_truncate = true.
Proof. vm_compute. reflexivity. Qed.

(** In double precision, for every 16-bit period, the cast yields the
    exact quotient rounded down. *)
Lemma duty_truncates (P : Z) :
  1 <= P <= 65535 -> duty_one P = 2 * (P + 1) / 3 /\ duty_zero P = (P + 1) / 3.
Proof.
  intro H. pose proof (all_from_spec _ _ _ duties_checked P) as C.
  rewrite Z2Nat.id in C by lia. specialize (C ltac:(lia)).
  unfold duties_truncate in C. apply andb_true_iff in C. destruct C as [C1 C0].
  split; apply Z.eqb_eq; assumption.
Qed.

Lemma wait_datasent_spec polls : forall s,
  let s' := wait_datasent polls s in
  pwmData s' = pwmData s
  /\ ARR_TIM1 s' = ARR_TIM1 s
  /\ hal_trace s' =
       hal_trace s ++ (if datasentflag s =? 0 then [Call_PWM_Stop_DMA] else []).
Proof.
  induction polls as [| k IH]; intro s; cbn [wait_datasent];
    destruct (datasentflag s =? 0) eqn:E; cbn [negb].
  - cbn. repeat split.
  - rewrite app_nil_r. repeat split.
  - specialize (IH s). rewrite E in IH. exact IH.
  - rewrite app_nil_r. repeat split.
Qed.

Lemma write_after_prefix {A : Type} (pre : list A) (v x : A) (t : list A) :
  write (Z.of_nat (length pre)) v (pre ++ x :: t) = pre ++ v :: t.
Proof.
  unfold write. destruct (Z.ltb_spec (Z.of_nat (length pre)) 0) as [H | _]; [lia |].
  rewrite Nat2Z.id. induction pre as [| y pre IH]; [reflexivity |].
  cbn. rewrite IH. reflexivity.
Qed.

Lemma color_loop_spec (color arr : Z) (n : nat) : forall pre buf,
  (n <= length buf)%nat ->
  color_loop n color arr (Z.of_nat (length pre)) (pre ++ buf) =
  (Z.of_nat (length pre + n),
   pre ++ map (duty_of_bit color arr) (rev (seq 0 n)) ++ skipn n buf).
Proof.
  induction n as [| i IH]; intros pre buf H.
  - cbn. rewrite Nat.add_0_r. reflexivity.
  - destruct buf as [| x buf]; [cbn in H; lia |].
    cbn [color_loop]. rewrite write_after_prefix, land_bit.
    change (pre ++ ?v :: buf) with (pre ++ [v] ++ buf). rewrite app_assoc.
    replace (Z.of_nat (length pre) + 1)
      with (Z.of_nat (length (pre ++ [duty_of_bit color arr i])))
      by (rewrite length_app; cbn; lia).
    unfold duty_of_bit at 1 2.
    rewrite IH by (cbn in H; lia).
    rewrite seq_S, rev_app_distr. cbn [rev app map skipn Nat.add].
    rewrite length_app, <- app_assoc. cbn [length app].
    f_equal. f_equal. lia.
Qed.

Lemma reset_loop_spec (n : nat) : forall pre buf,
  (n <= length buf)%nat ->
  reset_loop n (Z.of_nat (length pre)) (pre ++ buf) =
  (Z.of_nat (length pre + n), pre ++ repeat 0 n ++ skipn n buf).
Proof.
  induction n as [| k IH]; intros pre buf H.
  - cbn. rewrite Nat.add_0_r. reflexivity.
  - destruct buf as [| x buf]; [cbn in H; lia |].
    cbn [reset_loop]. rewrite write_after_prefix.
    change (pre ++ ?v :: buf) with (pre ++ [v] ++ buf). rewrite app_assoc.
    replace (Z.of_nat (length pre) + 1) with (Z.of_nat (length (pre ++ [0])))
      by (rewrite length_app; cbn; lia).
    rewrite IH by (cbn in H; lia).
    rewrite length_app, <- app_assoc. cbn [length app repeat skipn].
    f_equal. lia.
Qed.

(** The buffer after the two loops, whatever it held before. *)
Lemma loops_fill_buffer (color arr : Z) (buf : list Z) :
  length buf = 74%nat ->
  snd (let '(indx, b) := color_loop 24 color arr 0 buf in reset_loop 50 indx b) =
  map (fun b : bool => if b then duty_one arr else duty_zero arr) (bits_msb_first color)
  ++ repeat 0 50.
Proof.
  intro L.
  pose proof (color_loop_spec color arr 24 [] buf ltac:(lia)) as C.
  cbn [length app Nat.add] in C. change (Z.of_nat 0) with 0 in C. rewrite C.
  cbv beta iota.
  set (vals := map (duty_of_bit color arr) (rev (seq 0 24))).
  assert (Lv : length vals = 24%nat)
    by (unfold vals; rewrite length_map, length_rev, length_seq; reflexivity).
  replace (Z.of_nat 24) with (Z.of_nat (length vals)) by (rewrite Lv; reflexivity).
  rewrite reset_loop_spec by (rewrite length_skipn; lia).
  cbn [snd]. rewrite skipn_skipn, skipn_all2 by lia. rewrite app_nil_r.
  unfold vals, bits_msb_first. rewrite map_map. reflexivity.
Qed.

(** C3, as the code has it.  For every period from 1 to 65535 and a
    74-entry buffer, [WS2812_Send] leaves in the buffer one duty value per
    colour bit, bit 23 first, followed by 50 zeros; the duty value of a 1
    bit is 2(P+1)/3 rounded down and that of a 0 bit is (P+1)/3 rounded
    down.  So colour 0xFFFFFF gives 24 times the first value, colour
    0x000000 gives 24 times the second, and the 50 slots after them are 0
    for every colour. *)
Theorem WS2812_Send_duty_values (dma_ok : bool) (polls : nat) (s : State) :
  length (pwmData s) = 74%nat ->
  1 <= htim1_Init_Period s <= 65535 ->
  let P := htim1_Init_Period s in
  let s' := snd (WS2812_Send dma_ok polls s) in
  pwmData s' =
    map (fun b : bool => if b then 2 * (P + 1) / 3 else (P + 1) / 3)
        (bits_msb_first (color_of s))
    ++ repeat 0 50
  /\ length (pwmData s') = 74%nat
  /\ reset_slots s' = repeat 0 50
  /\ (color_of s = 0xFFFFFF -> duty_values s' = repeat (2 * (P + 1) / 3) 24)
  /\ (color_of s = 0x000000 -> duty_values s' = repeat ((P + 1) / 3) 24).
Proof.
  intros L HP P s'.
  assert (E : pwmData s' =
    map (fun b : bool => if b then 2 * (P + 1) / 3 else (P + 1) / 3)
        (bits_msb_first (color_of s)) ++ repeat 0 50).
  { subst s'. unfold WS2812_Send.
    cbn [ARR_TIM1 with_ARR_TIM1]. fold P.
    rewrite (Z.mod_small P) by (subst P; lia).
    destruct (Z.eqb_spec P 0) as [E0 | _]; [subst P; lia |].
    pose proof (loops_fill_buffer (color_of s) P (pwmData s) L) as F.
    destruct (duty_truncates P HP) as [D1 D0]. rewrite D1, D0 in F.
    change (color_of (with_ARR_TIM1 P s)) with (color_of s).
    change (pwmData (with_ARR_TIM1 P s)) with (pwmData s).
    destruct (color_loop 24 (color_of s) P 0 (pwmData s)) as [indx b].
    destruct (reset_loop 50 indx b) as [indx' b']. cbn [snd] in F. subst b'.
    destruct dma_ok; cbn [snd]; [| reflexivity].
    cbn [pwmData with_datasentflag].
    match goal with |- pwmData (wait_datasent polls ?s0) = _ =>
      destruct (wait_datasent_spec polls s0) as [W _]; rewrite W end.
    reflexivity. }
  assert (B : length (bits_msb_first (color_of s)) = 24%nat)
    by (unfold bits_msb_first; rewrite length_map, length_rev, length_seq; reflexivity).
  split; [exact E |].
  split; [rewrite E, length_app, length_map, repeat_length, B; reflexivity |].
  split.
  { unfold reset_slots. rewrite E, skipn_app, length_map, B.
    rewrite skipn_all2 by (rewrite length_map; lia). reflexivity. }
  split; intro C; unfold duty_values; rewrite E, firstn_app, length_map, B, C;
    cbn [Nat.sub firstn]; rewrite app_nil_r; reflexivity.
Qed.

(** White at period 3: 24 times 2. *)
Lemma WS2812_Send_duty_values_witness :
  duty_values (snd (WS2812_Send true 0 white)) = repeat (2 * (3 + 1) / 3) 24.
Proof.
  refine (proj1 (proj2 (proj2 (proj2 (WS2812_Send_duty_values true 0 white _ _)))) _).
  - reflexivity.
  - cbn. lia.
  - reflexivity.
Defined.

(** C3, as the claim states it, fails: the duty values are cut off, not
    rounded.  At period 1 the colour 0x000000 gives 24 times 0, while 2/3
    rounds to 1; at period 3 the colour 0xFFFFFF gives 24 times 2, while
    8/3 rounds to 3. *)
Lemma WS2812_Send_truncates_not_rounds :
  color_of dark = 0x000000
  /\ duty_values (snd (WS2812_Send true 0 dark)) = repeat 0 24
  /\ round ((1 # 3) * inject_Z (htim1_Init_Period dark + 1)) = 1
  /\ color_of white = 0xFFFFFF
  /\ duty_values (snd (WS2812_Send true 0 white)) = repeat 2 24
  /\ round ((2 # 3) * inject_Z (htim1_Init_Period white + 1)) = 3.
Proof. vm_compute. repeat split. Qed.

(** C9.  [WS2812_Send] reads the period into the 16-bit [ARR_TIM1].  When
    that reads as zero it logs a message and returns: the buffer and the
    completion flag are as before and no DMA transfer has been started.
    Otherwise it goes on: after the delay of 1 it starts the DMA transfer
    of the 74 slots of the buffer, and then returns with the transfer done
    or, had the start failed, ends in [Error_Handler]. *)
Theorem WS2812_Send_period_guard (dma_ok : bool) (polls : nat) (s : State) :
  let r := WS2812_Send dma_ok polls s in
  if htim1_Init_Period s mod 2 ^ 16 =? 0
  then fst r = Aborted
       /\ pwmData (snd r) = pwmData s
       /\ datasentflag (snd r) = datasentflag s
       /\ hal_trace (snd r) = hal_trace s ++ [Call_printf]
       /\ dma_started (snd r) = dma_started s
  else fst r = (if dma_ok then Sent else Halted)
       /\ firstn 2 (skipn (length (hal_trace s)) (hal_trace (snd r))) =
            [Call_Delay 1; Call_PWM_Start_DMA (pwmData (snd r)) 74]
       /\ dma_started (snd r) = true.
Proof.
  intro r. subst r. unfold WS2812_Send. cbn [ARR_TIM1 with_ARR_TIM1].
  destruct (htim1_Init_Period s mod 2 ^ 16 =? 0).
  - cbn. unfold dma_started. cbn. rewrite existsb_app. cbn.
    rewrite orb_false_r. repeat split.
  - set (s1 := with_ARR_TIM1 _ s).
    destruct (color_loop 24 (color_of s1) (htim1_Init_Period s mod 2 ^ 16) 0 (pwmData s1))
      as [indx b].
    destruct (reset_loop 50 indx b) as [indx' b'].
    set (s2 := log (Call_PWM_Start_DMA _ 74) _).
    assert (T : hal_trace s2 = hal_trace s ++ [Call_Delay 1; Call_PWM_Start_DMA b' 74]).
    { subst s2 s1. cbn. rewrite <- app_assoc. reflexivity. }
    assert (B : pwmData s2 = b') by reflexivity.
    clearbody s2.
    destruct dma_ok; cbn [fst snd].
    + destruct (wait_datasent_spec polls s2) as [W1 [_ W2]].
      cbn [hal_trace pwmData with_datasentflag].
      rewrite W1, W2, T, B. rewrite <- app_assoc.
      split; [reflexivity |].
      split; [rewrite skipn_app, skipn_all, Nat.sub_diag; reflexivity |].
      unfold dma_started. cbn [hal_trace with_datasentflag]. rewrite W2, T.
      rewrite !existsb_app. cbn. rewrite orb_true_r. reflexivity.
    + change (hal_trace (log Call_Error_Handler s2))
        with (hal_trace s2 ++ [Call_Error_Handler]).
      change (pwmData (log Call_Error_Handler s2)) with (pwmData s2).
      rewrite T, B. rewrite <- app_assoc.
      split; [reflexivity |].
      split; [rewrite skipn_app, skipn_all, Nat.sub_diag; reflexivity |].
      unfold dma_started.
      change (hal_trace (log Call_Error_Handler s2))
        with (hal_trace s2 ++ [Call_Error_Handler]).
      rewrite T. rewrite !existsb_app. cbn. rewrite orb_true_r. reflexivity.
Qed.

(** ** The frame and the transfer *)

Lemma byte_high_bit (v n : Z) : 0 <= v < 256 -> 8 <= n -> Z.testbit v n = false.
Proof.
  intros H Hn. rewrite <- (Z.mod_small v (2 ^ 8)) by (change (2 ^ 8) with 256; lia).
  apply Z.mod_pow2_bits_high. lia.
Qed.

Lemma color_bits (g r b : Z) :
  0 <= g < 256 -> 0 <= r < 256 -> 0 <= b < 256 ->
  bits_msb_first (Z.lor (Z.lor (Z.shiftl g 16) (Z.shiftl r 8)) b) =
  byte_bits g ++ byte_bits r ++ byte_bits b.
Proof.
  intros Hg Hr Hb. unfold bits_msb_first, byte_bits.
  cbn [seq rev app map].
  rewrite !Z.lor_spec, !Z.shiftl_spec by (cbn; lia).
  cbn [Z.of_nat Pos.of_succ_nat Pos.succ Z.sub Z.add Z.opp Z.pos_sub Pos.pred_double
       Z.succ_double Z.pred_double Z.double].
  rewrite !(Z.testbit_neg_r _ (Z.neg _)) by lia.
  repeat match goal with
  | |- context [Z.testbit ?v ?n] =>
      rewrite (byte_high_bit v n) by (assumption || lia)
  end.
  cbn [orb]. rewrite ?orb_false_r. reflexivity.
Qed.

(** A call that gets past the period guard: the buffer, the HAL calls and
    the completion flag it leaves. *)
Lemma WS2812_Send_run (dma_ok : bool) (polls : nat) (s : State) :
  length (pwmData s) = 74%nat ->
  htim1_Init_Period s mod 2 ^ 16 <> 0 ->
  let P := htim1_Init_Period s mod 2 ^ 16 in
  let buf := map (fun bit : bool => if bit then duty_one P else duty_zero P)
               (bits_msb_first (color_of s)) ++ repeat 0 50 in
  let s' := snd (WS2812_Send dma_ok polls s) in
  pwmData s' = buf
  /\ hal_trace s' =
       hal_trace s ++ [Call_Delay 1; Call_PWM_Start_DMA buf 74] ++
       (if dma_ok
        then if datasentflag s =? 0 then [Call_PWM_Stop_DMA] else []
        else [Call_Error_Handler])
  /\ datasentflag s' = (if dma_ok then 0 else datasentflag s).
Proof.
  intros L HP P buf s'. subst s'. unfold WS2812_Send.
  cbn [ARR_TIM1 with_ARR_TIM1]. fold P.
  destruct (Z.eqb_spec P 0) as [E0 | _]; [contradiction |].
  pose proof (loops_fill_buffer (color_of s) P (pwmData s) L) as F.
  change (color_of (with_ARR_TIM1 P s)) with (color_of s).
  change (pwmData (with_ARR_TIM1 P s)) with (pwmData s).
  destruct (color_loop 24 (color_of s) P 0 (pwmData s)) as [indx b].
  destruct (reset_loop 50 indx b) as [indx' b']. cbn [snd] in F. fold buf in F. subst b'.
  set (s2 := log (Call_PWM_Start_DMA _ 74) _).
  assert (T : hal_trace s2 = hal_trace s ++ [Call_Delay 1; Call_PWM_Start_DMA buf 74]).
  { subst s2. cbn. rewrite <- app_assoc. reflexivity. }
  assert (B : pwmData s2 = buf) by reflexivity.
  assert (D : datasentflag s2 = datasentflag s) by reflexivity.
  clearbody s2.
  destruct dma_ok; cbn [snd].
  - destruct (wait_datasent_spec polls s2) as [W1 [_ W2]].
    cbn [hal_trace pwmData datasentflag with_datasentflag].
    rewrite W1, W2, T, B, D, <- app_assoc. repeat split.
  - change (hal_trace (log Call_Error_Handler s2)) with (hal_trace s2 ++ [Call_Error_Handler]).
    change (pwmData (log Call_Error_Handler s2)) with (pwmData s2).
    change (datasentflag (log Call_Error_Handler s2)) with (datasentflag s2).
    rewrite T, B, D, <- app_assoc. repeat split.
Qed.

(** X9.  With the bytes [g], [r], [b] in slots 1, 2, 3 of [LED_Mod], the
    24 duty values of the frame are the eight bits of [g], then of [r],
    then of [b], each most significant bit first: the order green, red,
    blue the WS2812 expects. *)
Theorem WS2812_Send_GRB_order (dma_ok : bool) (polls : nat) (s : State) (i g r b : Z) :
  LED_Mod s = [i; g; r; b] ->
  0 <= g < 256 -> 0 <= r < 256 -> 0 <= b < 256 ->
  length (pwmData s) = 74%nat ->
  htim1_Init_Period s mod 2 ^ 16 <> 0 ->
  let P := htim1_Init_Period s mod 2 ^ 16 in
  duty_values (snd (WS2812_Send dma_ok polls s)) =
  map (fun bit : bool => if bit then duty_one P else duty_zero P)
      (byte_bits g ++ byte_bits r ++ byte_bits b).
Proof.
  intros M Hg Hr Hb L HP P.
  assert (C : color_of s = Z.lor (Z.lor (Z.shiftl g 16) (Z.shiftl r 8)) b).
  { unfold color_of. rewrite M. reflexivity. }
  destruct (WS2812_Send_run dma_ok polls s L HP) as (B & _).
  unfold duty_values. rewrite B, C, color_bits by assumption. fold P.
  set (vals := map _ (byte_bits g ++ _)).
  assert (Lv : length vals = 24%nat)
    by (subst vals; rewrite length_map, !length_app; reflexivity).
  rewrite firstn_app, Lv, Nat.sub_diag, firstn_O, app_nil_r.
  apply firstn_all2. lia.
Qed.

Lemma WS2812_Send_GRB_order_witness :
  duty_values (snd (WS2812_Send true 0 white)) =
  map (fun bit : bool => if bit then duty_one 3 else duty_zero 3)
      (byte_bits 255 ++ byte_bits 255 ++ byte_bits 255).
Proof.
  refine (WS2812_Send_GRB_order true 0 white 0 255 255 255 _ _ _ _ _ _);
    try reflexivity; try lia. cbn. discriminate.
Defined.

(** X10.  A call that gets past the period guard and whose DMA start
    succeeds makes, in this order, the delay of 1, the start of the
    transfer of the 74 slots and, when the completion flag was clear at the
    call, the stop of the transfer by the completion callback; it returns
    with the flag clear.  When the flag had been left set, the call
    returns without waiting for its own transfer to end. *)
Theorem WS2812_Send_transfer (polls : nat) (s : State) :
  length (pwmData s) = 74%nat ->
  htim1_Init_Period s mod 2 ^ 16 <> 0 ->
  let s' := snd (WS2812_Send true polls s) in
  calls_since s s' =
    [Call_Delay 1; Call_PWM_Start_DMA (pwmData s') 74] ++
    (if datasentflag s =? 0 then [Call_PWM_Stop_DMA] else [])
  /\ datasentflag s' = 0.
Proof.
  intros L HP s'.
  destruct (WS2812_Send_run true polls s L HP) as (B & T & D).
  fold s' in B, T, D. unfold calls_since. rewrite T, B.
  rewrite skipn_app, skipn_all, Nat.sub_diag. cbn [skipn app].
  split; [reflexivity | exact D].
Qed.

Lemma WS2812_Send_transfer_witness :
  datasentflag (snd (WS2812_Send true 5 white)) = 0.
Proof.
  refine (proj2 (WS2812_Send_transfer 5 white _ _)); [reflexivity | cbn; discriminate].
Defined.

(** ** Setting the colour *)

Lemma wait_datasent_LED_Data (d : list Z) (polls : nat) : forall s,
  wait_datasent polls (with_LED_Data d s) = with_LED_Data d (wait_datasent polls s).
Proof.
  induction polls as [| k IH]; intro s; cbn [wait_datasent];
    change (datasentflag (with_LED_Data d s)) with (datasentflag s);
    destruct (negb (datasentflag s =? 0)); try reflexivity.
  apply IH.
Qed.

Lemma WS2812_Send_LED_Data (dma_ok : bool) (polls : nat) (d : list Z) (s : State) :
  WS2812_Send dma_ok polls (with_LED_Data d s) =
  (fst (WS2812_Send dma_ok polls s), with_LED_Data d (snd (WS2812_Send dma_ok polls s))).
Proof.
  unfold WS2812_Send.
  cbn [ARR_TIM1 with_ARR_TIM1 with_LED_Data htim1_Init_Period].
  destruct (htim1_Init_Period s mod 2 ^ 16 =? 0); [reflexivity |].
  change (color_of (with_ARR_TIM1 ?a (with_LED_Data d s))) with (color_of s).
  change (color_of (with_ARR_TIM1 ?a s)) with (color_of s).
  change (pwmData (with_ARR_TIM1 ?a (with_LED_Data d s))) with (pwmData s).
  change (pwmData (with_ARR_TIM1 ?a s)) with (pwmData s).
  destruct (color_loop 24 _ _ 0 (pwmData s)) as [indx b].
  destruct (reset_loop 50 indx b) as [indx' b'].
  destruct dma_ok; [| reflexivity].
  cbn [fst snd]. f_equal.
  match goal with |- with_datasentflag 0 (wait_datasent polls ?s1) = _ =>
    match goal with |- _ = with_LED_Data d (with_datasentflag 0 (wait_datasent polls ?s0)) =>
      change s1 with (with_LED_Data d s0)
    end
  end.
  rewrite wait_datasent_LED_Data. reflexivity.
Qed.

(** X11.  [WS2812_SetLED] stores 0 and the low bytes of green, red and
    blue, in this order, into [LED_Data] and changes nothing else; with
    USE_BRIGHTNESS the frame is built from [LED_Mod], so a following
    [WS2812_Send] ends the same way and leaves the same buffer, flag and
    HAL calls as it would have without the call of [WS2812_SetLED]. *)
Theorem WS2812_SetLED_not_sent (dma_ok : bool) (polls : nat) (s : State) (Red Green Blue : Z) :
  length (LED_Data s) = 4%nat ->
  let colour := [0; Green mod 256; Red mod 256; Blue mod 256] in
  WS2812_SetLED Red Green Blue s = with_LED_Data colour s
  /\ WS2812_Send dma_ok polls (WS2812_SetLED Red Green Blue s) =
     (fst (WS2812_Send dma_ok polls s), with_LED_Data colour (snd (WS2812_Send dma_ok polls s))).
Proof.
  intros L colour.
  assert (E : WS2812_SetLED Red Green Blue s = with_LED_Data colour s).
  { unfold WS2812_SetLED. destruct (LED_Data s) as [| d0 [| d1 [| d2 [| d3 [| d4 d]]]]];
      try discriminate L. reflexivity. }
  split; [exact E |]. rewrite E. apply WS2812_Send_LED_Data.
Qed.

Lemma WS2812_SetLED_not_sent_witness :
  WS2812_SetLED 255 0 0 dark = with_LED_Data [0; 0 mod 256; 255 mod 256; 0 mod 256] dark.
Proof. refine (proj1 (WS2812_SetLED_not_sent true 0 dark 255 0 0 _)). reflexivity. Defined.

End WS2812_Facts.

(* ===================================================================== *)
(** * Properties of the flash paging writer                               *)
(* ===================================================================== *)

Module W25Qxx_Facts.
Import W25Qxx.

Lemma bytesToWrite_bounds (a r : Z) :
  0 < r ->
  1 <= bytesToWrite a r <= r /\ a mod 256 + bytesToWrite a r <= 256.
Proof.
  intro H. unfold bytesToWrite, W25Q128_PAGE_SIZE.
  pose proof (Z.mod_pos_bound a 256 ltac:(lia)).
  destruct (Z.gtb_spec r (256 - a mod 256)); lia.
Qed.

(** One round of the loop. *)
Lemma WriteData_loop_step (a d r : Z) :
  0 < r ->
  WriteData_loop a d r =
  framed (a, d, bytesToWrite a r)
  ++ WriteData_loop ((a + bytesToWrite a r) mod 2 ^ 32) (d + bytesToWrite a r)
       (r - bytesToWrite a r).
Proof.
  intro H. rewrite WriteData_loop_equation_1.
  destruct (Z_gt_dec r 0) as [g | N]; [| lia]. reflexivity.
Qed.

Lemma WriteData_loop_done (a d r : Z) : r <= 0 -> WriteData_loop a d r = [].
Proof.
  intro H. rewrite WriteData_loop_equation_1.
  destruct (Z_gt_dec r 0) as [g | N]; [lia |]. reflexivity.
Qed.

Lemma page_programs_framed c t : page_programs (framed c ++ t) = c :: page_programs t.
Proof. destruct c as [[a d] n]. reflexivity. Qed.

Lemma WriteData_loop_spec (n : nat) : forall a d r,
  0 <= r -> (Z.to_nat r <= n)%nat ->
  let cs := page_programs (WriteData_loop a d r) in
  Forall within_one_page cs
  /\ contiguous a d r cs
  /\ WriteData_loop a d r = flat_map framed cs.
Proof.
  induction n as [| n IH]; intros a d r H0 Hn cs; subst cs.
  - assert (r = 0) by lia. subst r. rewrite WriteData_loop_done by lia.
    cbn. auto.
  - destruct (Z.eq_dec r 0) as [-> | Hr].
    + rewrite WriteData_loop_done by lia. cbn. auto.
    + rewrite WriteData_loop_step by lia.
      destruct (bytesToWrite_bounds a r ltac:(lia)) as [[B1 B2] B3].
      rewrite page_programs_framed.
      specialize (IH ((a + bytesToWrite a r) mod 2 ^ 32) (d + bytesToWrite a r)
                     (r - bytesToWrite a r) ltac:(lia) ltac:(lia)).
      cbn zeta in IH. destruct IH as [I1 [I2 I3]].
      split; [| split].
      * constructor; [| exact I1]. unfold within_one_page, W25Q128_PAGE_SIZE. lia.
      * cbn [contiguous]. auto.
      * cbn [flat_map]. rewrite <- I3. reflexivity.
Qed.

Lemma map_seq_from {A : Type} (len : nat) : forall (f : nat -> A) s,
  map f (seq s len) = map (fun j => f (s + j)%nat) (seq 0 len).
Proof.
  induction len as [| len IH]; intros f s; [reflexivity |].
  cbn [seq map]. rewrite Nat.add_0_r. f_equal.
  rewrite (IH f (S s)), (IH (fun j => f (s + j)%nat) 1%nat).
  apply map_ext. intro j. f_equal. lia.
Qed.

Lemma byte_addresses_split (a k r : Z) :
  0 <= k <= r ->
  byte_addresses a r = byte_addresses a k ++ byte_addresses ((a + k) mod 2 ^ 32) (r - k).
Proof.
  intro H. unfold byte_addresses.
  replace (Z.to_nat r) with (Z.to_nat k + Z.to_nat (r - k))%nat by lia.
  rewrite seq_app, map_app. f_equal.
  cbn [Nat.add]. rewrite map_seq_from. apply map_ext. intro j.
  rewrite Zplus_mod_idemp_l. f_equal. lia.
Qed.

Lemma byte_offsets_split (d k r : Z) :
  0 <= k <= r ->
  byte_offsets d r = byte_offsets d k ++ byte_offsets (d + k) (r - k).
Proof.
  intro H. unfold byte_offsets.
  replace (Z.to_nat r) with (Z.to_nat k + Z.to_nat (r - k))%nat by lia.
  rewrite seq_app, map_app. f_equal.
  cbn [Nat.add]. rewrite map_seq_from. apply map_ext. intro j. lia.
Qed.

Lemma contiguous_total (cs : list (Z * Z * Z)) : forall a d r,
  Forall within_one_page cs -> contiguous a d r cs -> 0 <= r.
Proof.
  induction cs as [| [[a' d'] k] cs IH]; intros a d r F C.
  - cbn in C. lia.
  - inversion F as [| ? ? K F']; subst. unfold within_one_page in K.
    destruct K as [K1 K2]. cbn in C.
    destruct C as [_ [_ C]]. specialize (IH _ _ _ F' C). lia.
Qed.

(** A chain of page programs writes the addresses from its start on, one
    after the other, from consecutive buffer offsets. *)
Lemma contiguous_covers (cs : list (Z * Z * Z)) : forall a d r,
  Forall within_one_page cs -> contiguous a d r cs ->
  programmed_addresses cs = byte_addresses a r
  /\ transmitted_offsets cs = byte_offsets d r.
Proof.
  induction cs as [| [[a' d'] k] cs IH]; intros a d r F C.
  - cbn in C. subst r. split; reflexivity.
  - inversion F as [| ? ? K F']; subst. unfold within_one_page in K.
    destruct K as [K1 K2]. cbn in C.
    destruct C as [-> [-> C]].
    pose proof (contiguous_total _ _ _ _ F' C) as R.
    destruct (IH _ _ _ F' C) as [I1 I2].
    unfold programmed_addresses, transmitted_offsets in *. cbn [flat_map].
    rewrite I1, I2.
    rewrite (byte_addresses_split a k r), (byte_offsets_split d k r) by lia.
    split; reflexivity.
Qed.

(** C5.  For every start address and size, no page program of
    [W25Qxx_WriteData] reaches over a 256-byte page boundary; the page
    programs write the flash addresses address, address+1, ...,
    address+size-1 (32-bit addresses), each once and in this order, from
    the buffer offsets 0, ..., size-1; each follows the one before without
    gap; on the bus each is preceded by a write enable and followed by the
    wait for the busy bit; and address 200 with size 300 gives a program of
    56 bytes at 200 and one of 244 bytes at 256. *)
Theorem W25Qxx_WriteData_pages (address size : Z) :
  0 <= size ->
  let t := W25Qxx_WriteData address size in
  let cs := page_programs t in
  Forall within_one_page cs
  /\ programmed_addresses cs = byte_addresses address size
  /\ transmitted_offsets cs = byte_offsets 0 size
  /\ contiguous (address mod 2 ^ 32) 0 size cs
  /\ t = flat_map framed cs
  /\ page_programs (W25Qxx_WriteData 200 300) = [(200, 0, 56); (256, 56, 244)].
Proof.
  intros H t cs. subst t cs. unfold W25Qxx_WriteData.
  destruct (WriteData_loop_spec (Z.to_nat size) (address mod 2 ^ 32) 0 size H (le_n _))
    as [F [C T]].
  destruct (contiguous_covers _ _ _ _ F C) as [A O].
  split; [exact F |].
  split.
  { rewrite A. unfold byte_addresses. apply map_ext. intro j.
    apply Zplus_mod_idemp_l. }
  split; [exact O |].
  split; [exact C |].
  split; [exact T |].
  vm_compute. reflexivity.
Qed.

(** 300 bytes at address 200: both page programs stay inside their page. *)
Lemma W25Qxx_WriteData_pages_witness :
  Forall within_one_page (page_programs (W25Qxx_WriteData 200 300)).
Proof.
  refine (proj1 (W25Qxx_WriteData_pages 200 300 _)). lia.
Defined.

(** ** How the range is cut into pages *)

Lemma next_page_aligned (a k : Z) :
  a mod 256 + k = 256 -> ((a + k) mod 2 ^ 32) mod 256 = 0.
Proof.
  intro H. rewrite Z.mod_mod_divide by (exists (2 ^ 24); reflexivity).
  rewrite <- Z.add_mod_idemp_l by lia.
  rewrite H. reflexivity.
Qed.

Lemma WriteData_loop_count (n : nat) : forall a d r,
  0 < r -> (Z.to_nat r <= n)%nat ->
  Z.of_nat (length (page_programs (WriteData_loop a d r))) = (a mod 256 + r + 255) / 256.
Proof.
  induction n as [| n IH]; intros a d r Hr Hn; [lia |].
  rewrite WriteData_loop_step by lia. rewrite page_programs_framed.
  cbn [length]. rewrite Nat2Z.inj_succ.
  pose proof (Z.mod_pos_bound a 256 ltac:(lia)) as Ha.
  unfold bytesToWrite, W25Q128_PAGE_SIZE.
  destruct (Z.gtb_spec r (256 - a mod 256)) as [G | G].
  - assert (C1 : 0 < r - (256 - a mod 256)) by lia.
    assert (C2 : (Z.to_nat (r - (256 - a mod 256)) <= n)%nat) by lia.
    rewrite (IH _ _ _ C1 C2).
    rewrite (next_page_aligned a (256 - a mod 256)) by lia. rewrite Z.add_0_l.
    replace (a mod 256 + r + 255) with ((r - (256 - a mod 256) + 255) + 1 * 256) by lia.
    rewrite Z.div_add by lia. lia.
  - replace (r - r) with 0 by lia. rewrite WriteData_loop_done by lia.
    cbn [page_programs length]. change (Z.succ (Z.of_nat 0)) with 1.
    apply Z.div_unique with (r := a mod 256 + r - 1); lia.
Qed.

(** X12.  For a size above 0, [W25Qxx_WriteData] issues one page program
    for every flash page the range touches and no more: their number is
    the offset of the address in its page plus the size, divided by the
    page size and rounded up. *)
Theorem W25Qxx_WriteData_page_count (address size : Z) :
  0 < size ->
  Z.of_nat (length (page_programs (W25Qxx_WriteData address size))) =
  (address mod W25Q128_PAGE_SIZE + size + (W25Q128_PAGE_SIZE - 1)) / W25Q128_PAGE_SIZE.
Proof.
  intro H. unfold W25Qxx_WriteData, W25Q128_PAGE_SIZE.
  rewrite (WriteData_loop_count (Z.to_nat size)) by lia.
  rewrite Z.mod_mod_divide by (exists (2 ^ 24); reflexivity). reflexivity.
Qed.

Lemma W25Qxx_WriteData_page_count_witness :
  Z.of_nat (length (page_programs (W25Qxx_WriteData 200 300))) =
  (200 mod W25Q128_PAGE_SIZE + 300 + (W25Q128_PAGE_SIZE - 1)) / W25Q128_PAGE_SIZE.
Proof. apply (W25Qxx_WriteData_page_count 200 300). lia. Defined.

Lemma WriteData_loop_aligned (n : nat) : forall a d r,
  0 <= r -> (Z.to_nat r <= n)%nat ->
  let cs := page_programs (WriteData_loop a d r) in
  (a mod 256 = 0 -> forallb starts_page cs = true)
  /\ forallb starts_page (tl cs) = true
  /\ forallb fills_page (removelast cs) = true.
Proof.
  induction n as [| n IH]; intros a d r Hr Hn.
  - rewrite WriteData_loop_done by lia. cbn. auto.
  - destruct (Z.eq_dec r 0) as [-> | Hne].
    { rewrite WriteData_loop_done by lia. cbn. auto. }
    cbv zeta. rewrite WriteData_loop_step by lia. rewrite page_programs_framed.
    pose proof (bytesToWrite_bounds a r ltac:(lia)) as [B1 B2].
    set (k := bytesToWrite a r) in *.
    destruct (IH ((a + k) mod 2 ^ 32) (d + k) (r - k) ltac:(lia) ltac:(lia)) as [S [T F]].
    cbv zeta in S, T, F.
    destruct (Z.eq_dec (r - k) 0) as [E | E].
    + rewrite E in *. rewrite WriteData_loop_done in * by lia.
      cbn [page_programs tl removelast forallb starts_page andb].
      unfold W25Q128_PAGE_SIZE. repeat split; trivial.
      intro A. rewrite A. reflexivity.
    + assert (K : a mod 256 + k = 256).
      { subst k. unfold bytesToWrite, W25Q128_PAGE_SIZE in *.
        destruct (Z.gtb_spec r (256 - a mod 256)); lia. }
      specialize (S (next_page_aligned a k K)).
      cbn [tl forallb starts_page].
      destruct (page_programs (WriteData_loop ((a + k) mod 2 ^ 32) (d + k) (r - k)))
        as [| c cs] eqn:P.
      { exfalso.
        pose proof (WriteData_loop_count (Z.to_nat (r - k)) ((a + k) mod 2 ^ 32) (d + k) (r - k)
                      ltac:(lia) ltac:(lia)) as C.
        rewrite P in C. cbn [length] in C.
        rewrite next_page_aligned in C by exact K.
        assert (1 <= (0 + (r - k) + 255) / 256) by (apply Z.div_le_lower_bound; lia).
        lia. }
      try rewrite P in S. try rewrite P in F.
      split; [| split].
      * intro A. change (forallb starts_page ((a, d, k) :: c :: cs))
          with (starts_page (a, d, k) && forallb starts_page (c :: cs)).
        rewrite S. unfold starts_page, W25Q128_PAGE_SIZE. rewrite A. reflexivity.
      * exact S.
      * change (removelast ((a, d, k) :: c :: cs)) with ((a, d, k) :: removelast (c :: cs)).
        cbn [forallb]. rewrite F. unfold fills_page, W25Q128_PAGE_SIZE. rewrite K. reflexivity.
Qed.

(** X13.  Of the page programs of one [W25Qxx_WriteData], every one but
    the first starts on a page boundary and every one but the last ends on
    one: only the first and the last page of the range are written in
    part. *)
Theorem W25Qxx_WriteData_alignment (address size : Z) :
  0 <= size ->
  let cs := page_programs (W25Qxx_WriteData address size) in
  forallb starts_page (tl cs) = true /\ forallb fills_page (removelast cs) = true.
Proof.
  intros H cs. subst cs. unfold W25Qxx_WriteData.
  apply (WriteData_loop_aligned (Z.to_nat size)); lia.
Qed.

Lemma W25Qxx_WriteData_alignment_witness :
  forallb starts_page (tl (page_programs (W25Qxx_WriteData 200 600))) = true.
Proof. refine (proj1 (W25Qxx_WriteData_alignment 200 600 _)). lia. Defined.

End W25Qxx_Facts.

(* ===================================================================== *)
(** * Properties of the colour burst                                      *)
(* ===================================================================== *)

Module ILI9341_Facts.
Import ILI9341.

(** The buffer size for pixel counts whose doubling does not overflow. *)
Lemma Buffer_Size_cases (Size : Z) :
  0 <= Size < 2 ^ 31 ->
  Buffer_Size Size = if Size <? 50 then Size else BURST_MAX_SIZE.
Proof.
  intro H. unfold Buffer_Size, BURST_MAX_SIZE.
  rewrite Z.mod_small by lia.
  destruct (Z.ltb_spec (Size * 2) 100), (Z.ltb_spec Size 50); lia.
Qed.

(** It is the minimum of the byte count and the cap only for no pixel at
    all or from 50 pixels on. *)
Lemma Buffer_Size_min (Size : Z) :
  0 <= Size < 2 ^ 31 ->
  Buffer_Size Size = Z.min (Size * 2) BURST_MAX_SIZE <-> Size = 0 \/ 50 <= Size.
Proof.
  intro H. rewrite Buffer_Size_cases by exact H. unfold BURST_MAX_SIZE.
  destruct (Z.ltb_spec Size 50); lia.
Qed.

Lemma burst_buffer_full (Colour : Z) : burst_buffer Colour 100 = pixels Colour 50.
Proof. cbv -[Z.modulo Z.div]. reflexivity. Qed.

Lemma pixels_add (Colour : Z) (a b : nat) :
  pixels Colour (a + b) = pixels Colour a ++ pixels Colour b.
Proof. unfold pixels. rewrite repeat_app, concat_app. reflexivity. Qed.

Lemma pixels_length (Colour : Z) (n : nat) : length (pixels Colour n) = (2 * n)%nat.
Proof.
  induction n as [| n IH]; [reflexivity |].
  change (pixels Colour (S n)) with (pixels Colour 1 ++ pixels Colour n).
  rewrite length_app, IH. cbn. lia.
Qed.

Lemma pixels_blocks (Colour : Z) (k q : nat) :
  concat (repeat (pixels Colour k) q) = pixels Colour (q * k).
Proof.
  induction q as [| q IH]; [reflexivity |].
  cbn [repeat concat Nat.mul]. rewrite IH, pixels_add. reflexivity.
Qed.

Lemma pixels_firstn (Colour : Z) (r : nat) : forall n,
  (r <= n)%nat -> firstn (2 * r) (pixels Colour n) = pixels Colour r.
Proof.
  induction r as [| r IH]; intros n H; [reflexivity |].
  destruct n as [| n]; [lia |].
  replace (2 * S r)%nat with (S (S (2 * r))) by lia.
  change (pixels Colour (S n)) with
    ((Colour / 2 ^ 8) mod 256 :: Colour mod 256 :: pixels Colour n).
  change (pixels Colour (S r)) with
    ((Colour / 2 ^ 8) mod 256 :: Colour mod 256 :: pixels Colour r).
  cbn [firstn]. rewrite IH by lia. reflexivity.
Qed.

Lemma data_bytes_send_blocks (buf : list Z) (size : Z) (t : list BusOp) (n : nat) :
  data_bytes true (send_blocks n buf size ++ t) =
  concat (repeat (firstn (Z.to_nat (size mod 2 ^ 16)) buf) n) ++ data_bytes true t.
Proof.
  induction n as [| n IH]; [reflexivity |].
  cbn [send_blocks HAL_SPI_Transmit app data_bytes repeat concat].
  rewrite IH, app_assoc. reflexivity.
Qed.

(** From one full buffer on, the burst is the pixel run asked for. *)
Lemma colour_bytes_large (Colour N : Z) :
  50 <= N < 2 ^ 31 ->
  colour_bytes Colour N = pixels Colour (Z.to_nat N).
Proof.
  intro H. unfold colour_bytes, ILI9341_DrawColourBurst.
  rewrite Buffer_Size_cases by lia.
  destruct (Z.ltb_spec N 50) as [? | _]; [lia |].
  change (BURST_MAX_SIZE =? 0) with false. cbv iota. unfold BURST_MAX_SIZE.
  rewrite burst_buffer_full.
  rewrite (Z.mod_small (N * 2)) by lia.
  replace (N * 2) with (2 * N) by lia.
  change 100 with (2 * 50).
  rewrite Z.div_mul_cancel_l, Zmult_mod_distr_l by lia.
  pose proof (Z.div_mod N 50 ltac:(lia)) as D.
  pose proof (Z.mod_pos_bound N 50 ltac:(lia)) as R.
  assert (Q : 1 <= N / 50) by (apply Z.div_le_lower_bound; lia).
  destruct (Z.eqb_spec (N / 50) 0) as [? | _]; [lia |].
  cbn [negb].
  change (ILI9341_SendCommand 44 ++ ILI9341_SetData ++ ILI9341_ChipSelect ++ ?x)
    with (CS false :: DC false :: SPI_Transmit [44] :: CS true :: DC true :: CS false :: x).
  cbn [data_bytes app].
  rewrite data_bytes_send_blocks.
  cbn [HAL_SPI_Transmit ILI9341_ChipDeselect app data_bytes].
  rewrite !app_nil_r.
  change ((2 * 50) mod 2 ^ 16) with 100.
  rewrite (Z.mod_small (2 * (N mod 50))) by lia.
  rewrite firstn_all2 by (rewrite pixels_length; lia).
  rewrite pixels_blocks.
  replace (Z.to_nat (2 * (N mod 50))) with (2 * Z.to_nat (N mod 50))%nat by lia.
  rewrite pixels_firstn by lia.
  rewrite <- pixels_add. f_equal. lia.
Qed.

(** Below one full buffer, for colour 0x1234 and each count from 1 to 49:
    two bytes per pixel are sent, and they are the pixel run exactly when
    the count is even. *)
Lemma colour_bytes_small :
  forallb (small_burst_check 0x1234) (map Z.of_nat (seq 1 49)) = true.
Proof. vm_compute. reflexivity. Qed.

(** No pixel: nothing but the memory-write command goes out. *)
Lemma colour_bytes_none (Colour : Z) : colour_bytes Colour 0 = [].
Proof. reflexivity. Qed.

(** C7, at inputs where the code departs from it.  One pixel of colour
    0x1234 goes out as the high byte twice, not as high byte and low byte;
    three pixels go out as two runs of three bytes, so the second and
    third pair are not (high, low). *)
Theorem DrawColourBurst_odd_count_breaks_pixels :
  colour_bytes 0x1234 1 = [0x12; 0x12]
  /\ pixels 0x1234 1 = [0x12; 0x34]
  /\ colour_bytes 0x1234 3 = [0x12; 0x34; 0x12; 0x12; 0x34; 0x12]
  /\ pixels 0x1234 3 = [0x12; 0x34; 0x12; 0x34; 0x12; 0x34].
Proof. vm_compute. repeat split. Qed.

(** C8, at inputs where the code departs from it.  For 1 pixel the buffer
    size is 1, the minimum of byte count and cap is 2; for 49 pixels the
    buffer size is 49, the minimum is 98. *)
Theorem Buffer_Size_is_pixel_count_not_bytes :
  Buffer_Size 1 = 1 /\ Z.min (1 * 2) BURST_MAX_SIZE = 2
  /\ Buffer_Size 49 = 49 /\ Z.min (49 * 2) BURST_MAX_SIZE = 98.
Proof. vm_compute. repeat split. Qed.

(** ** What the display receives *)

Lemma hi8_small (v : Z) : 0 <= v < 2 ^ 16 -> hi8 v = v / 256.
Proof.
  intro H. unfold hi8. change (2 ^ 8) with 256.
  apply Z.mod_small. split; [apply Z.div_pos; lia | apply Z.div_lt_upper_bound; lia].
Qed.

Lemma received_SetAddress (X1 Y1 X2 Y2 : Z) (sel dc : bool) (t : list BusOp) :
  received sel dc (ILI9341_SetAddress X1 Y1 X2 Y2 ++ t) =
  command 0x2A ++ data [hi8 X1; lo8 X1; hi8 X2; lo8 X2] ++
  command 0x2B ++ data [hi8 Y1; lo8 Y1; hi8 Y2; lo8 Y2] ++ received false true t.
Proof. reflexivity. Qed.

Lemma received_SendCommand (c : Z) (sel dc : bool) (t : list BusOp) :
  received sel dc (ILI9341_SendCommand c ++ t) = command c ++ received false false t.
Proof. reflexivity. Qed.

Lemma received_SendData (d : list Z) (n : Z) (sel dc : bool) (t : list BusOp) :
  received sel dc (ILI9341_SendData d n ++ t) =
  data (firstn (Z.to_nat (n mod 2 ^ 16)) d) ++ received false true t.
Proof. reflexivity. Qed.

Lemma received_window (X1 Y1 X2 Y2 : Z) (sel dc : bool) (t : list BusOp) :
  0 <= X1 < 2 ^ 16 -> 0 <= Y1 < 2 ^ 16 -> 0 <= X2 < 2 ^ 16 -> 0 <= Y2 < 2 ^ 16 ->
  received sel dc (ILI9341_SetAddress X1 Y1 X2 Y2 ++ t) =
  window X1 Y1 X2 Y2 ++ received false true t.
Proof.
  intros. rewrite received_SetAddress. unfold window, lo8.
  rewrite !hi8_small by assumption. rewrite <- !app_assoc. reflexivity.
Qed.

Lemma received_send_blocks (buf : list Z) (size : Z) (t : list BusOp) (n : nat) :
  received true true (send_blocks n buf size ++ t) =
  data (concat (repeat (firstn (Z.to_nat (size mod 2 ^ 16)) buf) n)) ++ received true true t.
Proof.
  induction n as [| n IH]; [reflexivity |].
  cbn [send_blocks HAL_SPI_Transmit app received repeat concat].
  rewrite IH. unfold data. rewrite map_app, app_assoc. reflexivity.
Qed.

(** The burst as the display receives it: the memory-write command, then
    the colour bytes as data. *)
Lemma received_DrawColourBurst (Colour Size : Z) (sel dc : bool) (t : list BusOp) :
  received sel dc (ILI9341_DrawColourBurst Colour Size ++ t) =
  command 0x2C ++ data (colour_bytes Colour Size) ++
  received false (negb (Buffer_Size Size =? 0)) t.
Proof.
  unfold colour_bytes, ILI9341_DrawColourBurst.
  rewrite <- app_assoc, received_SendCommand. f_equal.
  change (data_bytes false (ILI9341_SendCommand 44 ++ ?x)) with (data_bytes false x).
  cbv zeta.
  destruct (Buffer_Size Size =? 0); [reflexivity |].
  cbn [negb ILI9341_SetData ILI9341_ChipSelect app received data_bytes].
  destruct (negb (_ =? 0)).
  - rewrite <- !app_assoc, received_send_blocks, data_bytes_send_blocks.
    cbn [HAL_SPI_Transmit ILI9341_ChipDeselect app received data_bytes negb].
    unfold data. rewrite !map_app, !app_nil_r, <- !app_assoc. reflexivity.
  - cbn [HAL_SPI_Transmit ILI9341_ChipDeselect app received data_bytes negb].
    unfold data. rewrite !app_nil_r. reflexivity.
Qed.

(** The burst of an even number of pixels below 50, for every colour. *)
Lemma colour_bytes_even (Colour N : Z) :
  0 <= N < 50 -> Z.even N = true -> colour_bytes Colour N = pixels Colour (Z.to_nat N).
Proof.
  intros H E.
  assert (K : exists k, N = 2 * Z.of_nat k /\ (k < 25)%nat).
  { exists (Z.to_nat (N / 2)). apply Z.even_spec in E. destruct E as [m ->].
    rewrite Z.mul_comm, Z.div_mul by lia. lia. }
  destruct K as [k [-> Hk]].
  do 25 (destruct k as [| k]; [cbv -[Z.modulo Z.div]; reflexivity |]).
  lia.
Qed.

Lemma colour_bytes_pixels (Colour N : Z) :
  0 <= N < 2 ^ 31 -> Z.even N = true \/ 50 <= N ->
  colour_bytes Colour N = pixels Colour (Z.to_nat N).
Proof.
  intros H [E | L].
  - destruct (Z_lt_dec N 50); [apply colour_bytes_even | apply colour_bytes_large]; trivial; lia.
  - apply colour_bytes_large. lia.
Qed.

(** X14.  [ILI9341_DrawPixel] makes the display receive the window of the
    one pixel [(x, y)], columns and rows as 16-bit values with the high
    byte first, then the memory-write command and the two bytes of the
    colour, high byte first; nothing is sent while the chip is not
    selected. *)
Theorem DrawPixel_one_pixel (x y color : Z) (sel dc : bool) :
  0 <= x < 2 ^ 16 -> 0 <= y < 2 ^ 16 -> 0 <= color < 2 ^ 16 ->
  received sel dc (ILI9341_DrawPixel x y color) =
  window x y x y ++ command 0x2C ++ data [color / 256; color mod 256].
Proof.
  intros Hx Hy Hc. unfold ILI9341_DrawPixel.
  rewrite received_window by assumption.
  rewrite received_SendCommand.
  rewrite <- (app_nil_r (ILI9341_SendData _ _)), received_SendData.
  rewrite hi8_small by assumption. reflexivity.
Qed.

Lemma DrawPixel_one_pixel_witness :
  received false false (ILI9341_DrawPixel 10 300 0xF800) =
  window 10 300 10 300 ++ command 0x2C ++ data [0xF800 / 256; 0xF800 mod 256].
Proof. apply (DrawPixel_one_pixel 10 300 0xF800 false false); lia. Defined.

Lemma shiftl8_byte (v : Z) : Z.shiftl v 8 mod 256 = 0.
Proof.
  rewrite Z.shiftl_mul_pow2 by lia. change (2 ^ 8) with 256.
  apply Z.mod_mul. lia.
Qed.

(** X15.  [ILI9341_ColumnAddressSet] and [ILI9341_RowAddressSet], which
    go through [ILI9341_SendCommandWithParam_16Bit], send 0 as the high
    byte of both addresses, whatever the addresses are: the shifted value
    is stored into a byte.  They set the range asked for only when both
    addresses are below 256. *)
Theorem AddressSet_16Bit_drops_high_bytes (SC EC : Z) (sel dc : bool) :
  received sel dc (ILI9341_ColumnAddressSet SC EC) =
    command 0x2A ++ data [0; SC mod 256; 0; EC mod 256] /\
  received sel dc (ILI9341_RowAddressSet SC EC) =
    command 0x2B ++ data [0; SC mod 256; 0; EC mod 256].
Proof.
  unfold ILI9341_ColumnAddressSet, ILI9341_RowAddressSet, ILI9341_SendCommandWithParam_16Bit.
  assert (T : split16_loop (Z.to_nat 4) 0 0 4 [SC; EC] (repeat 0 (Z.to_nat 4)) =
              [0; SC mod 256; 0; EC mod 256]).
  { cbv -[Z.modulo Z.shiftl]. rewrite !shiftl8_byte. reflexivity. }
  rewrite T. split; reflexivity.
Qed.

(** ** Colours from red, green and blue *)

Lemma lor_shiftl_add (x y k : Z) :
  0 <= k -> 0 <= y < 2 ^ k -> Z.lor (Z.shiftl x k) y = x * 2 ^ k + y.
Proof.
  intros Hk Hy.
  assert (L : Z.land (Z.shiftl x k) y = 0).
  { apply Z.bits_inj'. intros n Hn. rewrite Z.land_spec, Z.bits_0.
    destruct (Z.ltb_spec n k).
    - rewrite Z.shiftl_spec_low by lia. reflexivity.
    - rewrite <- (Z.mod_small y (2 ^ k)) by lia.
      rewrite Z.mod_pow2_bits_high by lia. apply andb_false_r. }
  rewrite <- Z.lxor_lor, <- Z.add_nocarry_lxor by exact L.
  rewrite Z.shiftl_mul_pow2 by lia. reflexivity.
Qed.

Lemma masks_checked : WS2812.all_from 256 0 mask_check = true.
Proof. vm_compute. reflexivity. Qed.

Lemma byte_masks (v : Z) :
  0 <= v < 256 -> Z.land v 0xF8 = 8 * (v / 8) /\ Z.land v 0xFC = 4 * (v / 4).
Proof.
  intro H.
  assert (C : mask_check v = true).
  { apply (WS2812_Facts.all_from_spec mask_check 256 0 masks_checked). lia. }
  unfold mask_check in C. rewrite andb_true_iff, !Z.eqb_eq in C. exact C.
Qed.

Lemma rgb565_fields (r g b : Z) :
  0 <= r < 256 -> 0 <= g < 256 -> 0 <= b < 256 ->
  rgb565 r g b = (r / 8) * 2048 + (g / 4) * 32 + b / 8 /\
  0 <= rgb565 r g b < 2 ^ 16.
Proof.
  intros Hr Hg Hb.
  assert (R : 0 <= r / 8 < 32) by (split; [apply Z.div_pos | apply Z.div_lt_upper_bound]; lia).
  assert (G : 0 <= g / 4 < 64) by (split; [apply Z.div_pos | apply Z.div_lt_upper_bound]; lia).
  assert (B : 0 <= b / 8 < 32) by (split; [apply Z.div_pos | apply Z.div_lt_upper_bound]; lia).
  assert (E : rgb565 r g b = (r / 8) * 2048 + (g / 4) * 32 + b / 8).
  { unfold rgb565, u16.
    destruct (byte_masks r Hr) as [-> _]. destruct (byte_masks g Hg) as [_ ->].
    rewrite Z.shiftr_div_pow2 by lia. change (2 ^ 3) with 8.
    replace (Z.shiftl (8 * (r / 8)) 8) with (Z.shiftl (r / 8 * 64) 5)
      by (rewrite !Z.shiftl_mul_pow2 by lia; change (2 ^ 8) with 256; change (2 ^ 5) with 32; lia).
    replace (Z.shiftl (4 * (g / 4)) 3) with (Z.shiftl (g / 4) 5)
      by (rewrite !Z.shiftl_mul_pow2 by lia; change (2 ^ 3) with 8; change (2 ^ 5) with 32; lia).
    rewrite <- Z.shiftl_lor.
    replace (r / 8 * 64) with (Z.shiftl (r / 8) 6)
      by (rewrite Z.shiftl_mul_pow2 by lia; reflexivity).
    rewrite (lor_shiftl_add (r / 8) (g / 4) 6) by (change (2 ^ 6) with 64; lia).
    rewrite lor_shiftl_add by (change (2 ^ 5) with 32; lia).
    change (2 ^ 6) with 64. change (2 ^ 5) with 32. change (2 ^ 16) with 65536.
    rewrite Z.mod_small by lia. lia. }
  change (2 ^ 16) with 65536. rewrite E. lia.
Qed.

(** X16.  [ILI9341_DrawPixelRGB] sets the window of the pixel twice and
    then sends one pixel whose 16-bit colour holds the upper five bits of
    red in bits 15 to 11, the upper six bits of green in bits 10 to 5 and
    the upper five bits of blue in bits 4 to 0. *)
Theorem DrawPixelRGB_packs_565 (x y r g b : Z) (sel dc : bool) :
  0 <= x < 2 ^ 16 -> 0 <= y < 2 ^ 16 ->
  0 <= r < 256 -> 0 <= g < 256 -> 0 <= b < 256 ->
  let colour := (r / 8) * 2048 + (g / 4) * 32 + b / 8 in
  received sel dc (ILI9341_DrawPixelRGB x y r g b) =
  window x y x y ++ window x y x y ++ command 0x2C ++
  data [colour / 256; colour mod 256].
Proof.
  intros Hx Hy Hr Hg Hb colour. unfold ILI9341_DrawPixelRGB.
  destruct (rgb565_fields r g b Hr Hg Hb) as [E B]. fold colour in E.
  rewrite received_window by assumption. f_equal.
  rewrite E in *. unfold ILI9341_DrawPixel.
  rewrite received_window by assumption.
  rewrite received_SendCommand.
  rewrite <- (app_nil_r (ILI9341_SendData _ _)), received_SendData.
  rewrite hi8_small by assumption. reflexivity.
Qed.

(** Orange, (255, 128, 7), is 0xFC00. *)
Lemma DrawPixelRGB_packs_565_witness :
  received false false (ILI9341_DrawPixelRGB 1 2 255 128 7) =
  window 1 2 1 2 ++ window 1 2 1 2 ++ command 0x2C ++ data [0xFC; 0x00].
Proof.
  refine (DrawPixelRGB_packs_565 1 2 255 128 7 false false _ _ _ _ _); lia.
Defined.

(** ** Filled areas *)

(** X17.  [ILI9341_FillScreen] sets the window from column 0 to column
    WIDTH and from row 0 to row HEIGHT, both ends included, which is one
    column and one row more than the screen has, and sends exactly WIDTH
    times HEIGHT pixels of the colour. *)
Theorem FillScreen_window_and_pixels (scr : Screen) (Colour : Z) (sel dc : bool) :
  0 <= ILI9341_WIDTH scr < 2 ^ 16 -> 0 <= ILI9341_HEIGHT scr < 2 ^ 16 ->
  50 <= ILI9341_WIDTH scr * ILI9341_HEIGHT scr < 2 ^ 31 ->
  received sel dc (ILI9341_FillScreen scr Colour) =
  window 0 0 (ILI9341_WIDTH scr) (ILI9341_HEIGHT scr) ++ command 0x2C ++
  data (pixels Colour (Z.to_nat (ILI9341_WIDTH scr * ILI9341_HEIGHT scr))).
Proof.
  intros HW HH HA. unfold ILI9341_FillScreen.
  rewrite received_window by (assumption || lia).
  rewrite Z.mod_small by lia.
  rewrite <- (app_nil_r (ILI9341_DrawColourBurst _ _)), received_DrawColourBurst.
  rewrite colour_bytes_large by lia. cbn [received]. rewrite app_nil_r. reflexivity.
Qed.

Lemma FillScreen_window_and_pixels_witness :
  received false false (ILI9341_FillScreen portrait 0x001F) =
  window 0 0 240 320 ++ command 0x2C ++ data (pixels 0x001F (Z.to_nat 76800)).
Proof.
  refine (FillScreen_window_and_pixels portrait 0x001F false false _ _ _); cbn; lia.
Defined.

(** X18.  [ILI9341_DrawRectangle] with a rectangle that lies within the
    16-bit coordinates and has an even number of pixels, or at least 50,
    sets the window to exactly the rectangle and sends exactly as many
    pixels of the colour as the rectangle has. *)
Theorem DrawRectangle_fills_window (x y w h color : Z) (sel dc : bool) :
  0 <= x -> 0 <= y -> 1 <= w -> 1 <= h ->
  x + w <= 2 ^ 16 -> y + h <= 2 ^ 16 ->
  w * h < 2 ^ 31 ->
  Z.even (w * h) = true \/ 50 <= w * h ->
  received sel dc (ILI9341_DrawRectangle x y w h color) =
  window x y (x + w - 1) (y + h - 1) ++ command 0x2C ++
  data (pixels color (Z.to_nat (w * h))).
Proof.
  intros Hx Hy Hw Hh HX HY HA HE. unfold ILI9341_DrawRectangle, u16.
  rewrite !Z.mod_small by nia.
  rewrite received_window by lia.
  rewrite <- (app_nil_r (ILI9341_DrawColourBurst _ _)), received_DrawColourBurst.
  rewrite colour_bytes_pixels by (trivial; nia).
  cbn [received]. rewrite app_nil_r. reflexivity.
Qed.

Lemma DrawRectangle_fills_window_witness :
  received false false (ILI9341_DrawRectangle 10 20 4 3 0x07E0) =
  window 10 20 13 22 ++ command 0x2C ++ data (pixels 0x07E0 12).
Proof.
  refine (DrawRectangle_fills_window 10 20 4 3 0x07E0 false false _ _ _ _ _ _ _ _);
    try lia.
  left. reflexivity.
Defined.

(** X19.  [ILI9341_DrawImage] sets the window to the image rectangle and
    sends the first bytes of the image as data; their number is width
    times height times 2 taken modulo 65536, the size parameter of
    [HAL_SPI_Transmit] being 16 bits wide: an image of 32768 pixels or
    more is not sent in full. *)
Theorem DrawImage_sends_truncated_count (x y width height : Z) (image : list Z)
    (sel dc : bool) :
  0 <= x -> 0 <= y -> 1 <= width -> 1 <= height ->
  x + width <= 2 ^ 16 -> y + height <= 2 ^ 16 ->
  received sel dc (ILI9341_DrawImage x y width height image) =
  window x y (x + width - 1) (y + height - 1) ++ command 0x2C ++
  data (firstn (Z.to_nat ((width * height * 2) mod 2 ^ 16)) image).
Proof.
  intros Hx Hy Hw Hh HX HY. unfold ILI9341_DrawImage, u16.
  rewrite !(Z.mod_small (_ - 1)) by lia.
  rewrite received_window by lia.
  rewrite received_SendCommand.
  rewrite <- (app_nil_r (ILI9341_SendData _ _)), received_SendData.
  replace (((width * height * 2) mod 2 ^ 32) mod 2 ^ 16) with ((width * height * 2) mod 2 ^ 16).
  - cbn [received]. rewrite app_nil_r. reflexivity.
  - symmetry. apply Z.mod_mod_divide. exists (2 ^ 16). reflexivity.
Qed.

Lemma DrawImage_sends_truncated_count_witness :
  received false false (ILI9341_DrawImage 0 0 2 1 [1; 2; 3; 4]) =
  window 0 0 1 0 ++ command 0x2C ++ data [1; 2; 3; 4].
Proof.
  refine (DrawImage_sends_truncated_count 0 0 2 1 [1; 2; 3; 4] false false _ _ _ _ _ _); lia.
Defined.

(** ** Orientation *)

(** X20.  [ILI9341_SetRotation] with one of the four rotations sends the
    command 0x36 and one data byte that has the BGR bit (bit 3) set, and
    sets the screen size to 320 x 240 exactly when the byte exchanges rows
    and columns (bit 5), to 240 x 320 otherwise.  With any other value it
    sends the command alone, no data byte, and leaves the size as it
    was. *)
Theorem SetRotation_cases (Rotation : Z) (scr : Screen) (sel dc : bool) :
  0 <= Rotation ->
  let (scr', t) := ILI9341_SetRotation Rotation scr in
  if Rotation <? 4 then
    exists d, received sel dc (bus_ops t) = command 0x36 ++ data [d] /\
      Z.testbit d 3 = true /\
      scr' = (if Z.testbit d 5 then landscape else portrait)
  else scr' = scr /\ received sel dc (bus_ops t) = command 0x36.
Proof.
  intro H. destruct (Z.ltb_spec Rotation 4) as [L | L].
  - assert (C : Rotation = 0 \/ Rotation = 1 \/ Rotation = 2 \/ Rotation = 3) by lia.
    destruct C as [-> | [-> | [-> | ->]]]; cbn;
      eexists; (split; [reflexivity | split; reflexivity]).
  - unfold ILI9341_SetRotation, SCREEN_VERTICAL_1, SCREEN_HORIZONTAL_1,
      SCREEN_VERTICAL_2, SCREEN_HORIZONTAL_2.
    destruct (Z.eqb_spec Rotation 0); [lia |].
    destruct (Z.eqb_spec Rotation 1); [lia |].
    destruct (Z.eqb_spec Rotation 2); [lia |].
    destruct (Z.eqb_spec Rotation 3); [lia |].
    split; reflexivity.
Qed.

Lemma SetRotation_cases_witness :
  let (scr', t) := ILI9341_SetRotation 7 portrait in
  scr' = portrait /\ received false false (bus_ops t) = command 0x36.
Proof. refine (SetRotation_cases 7 portrait false false _). lia. Defined.

(** X21.  [ILI9341_SetOrientation] always sends the command 0x36 with one
    data byte.  For the six orientations of the enumeration the byte has
    the BGR bit set and the screen size is 320 x 240 exactly when the byte
    exchanges rows and columns; for any other value the byte is 0 and the
    size stays as it was. *)
Theorem SetOrientation_cases (orientation : Z) (scr : Screen) (sel dc : bool) :
  0 <= orientation ->
  let (scr', t) := ILI9341_SetOrientation orientation scr in
  exists d, received sel dc t = command 0x36 ++ data [d] /\
    if orientation <? 6 then
      Z.testbit d 3 = true /\ scr' = (if Z.testbit d 5 then landscape else portrait)
    else d = 0 /\ scr' = scr.
Proof.
  intro H. destruct (Z.ltb_spec orientation 6) as [L | L].
  - assert (C : orientation = 0 \/ orientation = 1 \/ orientation = 2 \/
                orientation = 3 \/ orientation = 4 \/ orientation = 5) by lia.
    destruct C as [-> | [-> | [-> | [-> | [-> | ->]]]]]; cbn;
      eexists; (split; [reflexivity | split; reflexivity]).
  - unfold ILI9341_SetOrientation, ILI9341_PORTRAIT, ILI9341_LANDSCAPE,
      ILI9341_PORTRAIT_INVERTED, ILI9341_LANDSCAPE_INVERTED, TEST, ILI9341_PORTRAIT_TRUE.
    destruct (Z.eqb_spec orientation 0); [lia |].
    destruct (Z.eqb_spec orientation 1); [lia |].
    destruct (Z.eqb_spec orientation 2); [lia |].
    destruct (Z.eqb_spec orientation 3); [lia |].
    destruct (Z.eqb_spec orientation 4); [lia |].
    destruct (Z.eqb_spec orientation 5); [lia |].
    exists 0. split; [reflexivity | split; reflexivity].
Qed.

Lemma SetOrientation_cases_witness :
  let (scr', t) := ILI9341_SetOrientation 1 portrait in
  exists d, received false false t = command 0x36 ++ data [d] /\
    Z.testbit d 3 = true /\ scr' = (if Z.testbit d 5 then landscape else portrait).
Proof. refine (SetOrientation_cases 1 portrait false false _). lia. Defined.

(** ** The circle outline *)

Lemma circle_rounds_loop (n : nat) : forall x y d,
  (Z.to_nat (x - y + 1) <= n)%nat -> circle_rounds x y d = circle_loop n x y d.
Proof.
  induction n as [| n IH]; intros x y d H.
  - rewrite circle_rounds_equation_1. destruct (Z_le_dec y x); [lia | reflexivity].
  - rewrite circle_rounds_equation_1. cbn [circle_loop].
    destruct (Z_le_dec y x) as [L | L]; destruct (Z.leb_spec y x); try lia; [| reflexivity].
    cbn. f_equal. destruct (d <=? 0); apply IH; lia.
Qed.

(** Every radius a [uint8_t] can hold, but 0. *)
Lemma circles_checked : WS2812.all_from 255 1 circle_check = true.
Proof. vm_compute. reflexivity. Qed.

Lemma circle_rounds_near (r x y : Z) :
  1 <= r < 256 -> In (x, y) (circle_rounds r 0 (1 - r)) ->
  0 <= y <= x /\ x <= r /\
  (2 * r - 1) ^ 2 <= 4 * (x * x + y * y) <= (2 * r + 1) ^ 2.
Proof.
  intros Hr I.
  rewrite (circle_rounds_loop (Z.to_nat (r + 1))) in I by lia.
  assert (C : circle_check r = true).
  { apply (WS2812_Facts.all_from_spec circle_check 255 1 circles_checked). lia. }
  unfold circle_check in C. rewrite forallb_forall in C.
  specialize (C (x, y) I). unfold near_circle in C.
  rewrite !andb_true_iff, !Z.leb_le in C. lia.
Qed.

(** X22.  Every pixel [ILI9341_DrawCircleOutline] draws for a radius from
    1 to 255, with the circle inside the 16-bit coordinates, lies within
    half a pixel of the circle: its distance [d] from the centre
    satisfies r - 1/2 <= d <= r + 1/2. *)
Theorem DrawCircleOutline_on_circle (x_pos y_pos r px py : Z) :
  1 <= r < 256 ->
  r <= x_pos -> x_pos + r < 2 ^ 16 -> r <= y_pos -> y_pos + r < 2 ^ 16 ->
  In (px, py) (outline_pixels x_pos y_pos r) ->
  (2 * r - 1) ^ 2 <= 4 * ((px - x_pos) ^ 2 + (py - y_pos) ^ 2) <= (2 * r + 1) ^ 2.
Proof.
  intros Hr X1 X2 Y1 Y2 I. unfold outline_pixels in I.
  apply in_flat_map in I. destruct I as [[x y] [I O]].
  destruct (circle_rounds_near r x y Hr I) as [Hy [Hx B]].
  unfold octants, u16 in O.
  rewrite !Z.mod_small in O by lia.
  cbn [In] in O.
  repeat (destruct O as [E | O];
    [inversion E; subst px py;
     match goal with
     | |- _ <= 4 * (?a ^ 2 + ?b ^ 2) <= _ =>
         replace (a ^ 2 + b ^ 2) with (x * x + y * y) by ring
     end; exact B |]).
  contradiction.
Qed.

(** The first pixel of the circle of radius 3 about (100, 50). *)
Lemma DrawCircleOutline_on_circle_witness :
  (2 * 3 - 1) ^ 2 <= 4 * ((103 - 100) ^ 2 + (50 - 50) ^ 2) <= (2 * 3 + 1) ^ 2.
Proof.
  refine (DrawCircleOutline_on_circle 100 50 3 103 50 _ _ _ _ _ _); try lia.
  vm_compute. left. reflexivity.
Defined.

(** ** Images from the SD card *)

Lemma rows_loop_spec (card : Card) (x y width : Z) (n : nat) : forall i : nat,
  let '(ops, done) := rows_loop card n (Z.of_nat i) x y width in
  done = (good_rows card width i n =? n)%nat /\
  times is_Draw ops = good_rows card width i n /\
  times is_f_close ops = (if done then 0 else 1)%nat /\
  times is_unmountSD ops = 0%nat /\
  drawn ops =
    flat_map (fun r => ILI9341_DrawImage x (u16 (y + Z.of_nat r)) width 1 (snd (f_read card r)))
      (seq i (good_rows card width i n)).
Proof.
  induction n as [| n IH]; intro i.
  - cbn. repeat split; reflexivity.
  - cbn [rows_loop good_rows]. unfold row_ok. rewrite Nat2Z.id.
    destruct (f_read card i) as [ok buffer] eqn:F.
    destruct ok; cbn [negb orb andb].
    + destruct (Z.of_nat (length buffer) =? width * 2) eqn:E; cbn [negb].
      * specialize (IH (S i)). rewrite Nat2Z.inj_succ in IH.
        change (Z.succ (Z.of_nat i)) with (Z.of_nat i + 1) in IH.
        destruct (rows_loop card n (Z.of_nat i + 1) x y width) as [rest done].
        destruct IH as [D [P [C [U W]]]].
        repeat split.
        -- exact D.
        -- unfold times in *. cbn. rewrite P. reflexivity.
        -- unfold times in *. cbn. exact C.
        -- unfold times in *. cbn. exact U.
        -- cbn [drawn flat_map app seq]. change (flat_map _ rest) with (drawn rest).
           rewrite W, F. cbn [snd]. reflexivity.
      * repeat split; reflexivity.
    + repeat split; reflexivity.
Qed.

(** X23.  [ILI9341_DrawBinaryFile] closes the file exactly when it has
    opened it, on every path, but unmounts the card only when every row
    was read in full: when the file cannot be opened, or a read fails or
    comes up short, it returns with the card still mounted. *)
Theorem DrawBinaryFile_resources (card : Card) (x y width height : Z) :
  let t := ILI9341_DrawBinaryFile card x y width height in
  let complete :=
    mounts card && opens card &&
    (good_rows card width 0 (Z.to_nat height) =? Z.to_nat height)%nat in
  times is_f_close t = (if mounts card && opens card then 1 else 0)%nat /\
  times is_unmountSD t = (if complete then 1 else 0)%nat.
Proof.
  intros t complete. subst t complete. unfold ILI9341_DrawBinaryFile.
  destruct (mounts card); [| split; reflexivity].
  destruct (opens card); [| split; reflexivity].
  cbn [negb andb].
  pose proof (rows_loop_spec card x y width (Z.to_nat height) 0) as S.
  change (Z.of_nat 0) with 0 in S.
  destruct (rows_loop card (Z.to_nat height) 0 x y width) as [ops done].
  destruct S as [D [P [C [U W]]]]. rewrite <- D.
  unfold times in *. cbn [app filter is_f_close is_unmountSD].
  rewrite !filter_app, !length_app, C, U.
  destruct done; split; reflexivity.
Qed.

(** X24.  With the card mounted and the file open, the rows drawn are the
    rows read in full before the first read that fails or comes up short,
    in order; row [r] is drawn as an image one pixel high at row [y + r]
    from the bytes just read, and nothing else is sent to the display. *)
Theorem DrawBinaryFile_rows (card : Card) (x y width height : Z) :
  mounts card = true -> opens card = true ->
  drawn (ILI9341_DrawBinaryFile card x y width height) =
  flat_map (fun r => ILI9341_DrawImage x (u16 (y + Z.of_nat r)) width 1 (snd (f_read card r)))
    (seq 0 (good_rows card width 0 (Z.to_nat height))).
Proof.
  intros M O. unfold ILI9341_DrawBinaryFile. rewrite M, O. cbn [negb].
  pose proof (rows_loop_spec card x y width (Z.to_nat height) 0) as S.
  change (Z.of_nat 0) with 0 in S.
  destruct (rows_loop card (Z.to_nat height) 0 x y width) as [ops done].
  destruct S as [D [P [C [U W]]]].
  unfold drawn in *. cbn [app flat_map]. rewrite flat_map_app, W.
  destruct done; cbn; rewrite app_nil_r; reflexivity.
Qed.

(** A file of one row of two pixels where two rows are asked for: the
    first row is drawn, the second read comes up short. *)
Lemma DrawBinaryFile_rows_witness :
  drawn (ILI9341_DrawBinaryFile one_row_file 5 7 2 2) =
  flat_map (fun r => ILI9341_DrawImage 5 (u16 (7 + Z.of_nat r)) 2 1
                       (snd (f_read one_row_file r)))
    (seq 0 (good_rows one_row_file 2 0 (Z.to_nat 2))).
Proof. apply (DrawBinaryFile_rows one_row_file 5 7 2 2); reflexivity. Defined.

End ILI9341_Facts.
